(** * RevenueCalculator (final_Code.py): a shallow embedding and its properties

    The script drives a browser through Selenium.  The embedding has three
    layers:

    - [Py]: the Python built-ins the script relies on (exceptions, [int] and
      [float] values with binary64 arithmetic, [str.replace], [int()],
      [float()], [str()], [sum], [math.ceil]);
    - [Selenium]: the WebDriver commands the script issues, a browser as
      anything that answers them, and the monad in which the methods run
      (object state, browser state and the log of issued commands are threaded;
      an exception keeps the state reached so far);
    - [RevenueCalculator]: the class, method by method.

    [Spec] holds the slider formulas in the words of the specification,
    [Widget] the behaviour assumed of the text field and of the slider, and
    [Page] a small concrete browser on which the statements are exercised. *)

From Stdlib Require Import ZArith List String Ascii Bool Lia.
From Stdlib Require Import SpecFloat DecimalString DecimalZ DecimalPos.
Import ListNotations.

Local Open Scope string_scope.
Local Open Scope list_scope.
Local Open Scope Z_scope.

(* ===================================================================== *)
(** * Python built-ins *)
(* ===================================================================== *)

Module Py.

(** ** Values and exceptions *)

(** A number: an [int] or a [float] (binary64). *)
Inductive number :=
| PInt (z : Z)
| PFloat (f : spec_float).

(** The pieces of an f-string of the script: literal text and interpolated
    values, kept unrendered. *)
Inductive piece :=
| Lit (s : string)
| Num (n : number)
| Str (s : string)
| NoneVal.

(** Exceptions raised by Selenium. *)
Inductive wd_exn :=
| TimeoutException
| NoSuchElementException
| StaleElementReferenceException
| ElementNotInteractableException
| WebDriverException.

Inductive exn :=
| SeleniumException (e : wd_exn)
| ZeroDivisionError
| OverflowError
| ValueError
| TypeError
| AttributeError
| AssertionError (msg : list piece).

Definition result (A : Type) : Type := (exn + A)%type.

Definition Ok {A} (a : A) : result A := inr a.
Definition Err {A} (e : exn) : result A := inl e.

Definition rbind {A B} (r : result A) (k : A -> result B) : result B :=
  match r with
  | inl e => inl e
  | inr a => k a
  end.

Definition is_ok {A} (r : result A) : bool :=
  match r with inr _ => true | inl _ => false end.

(** ** Floats: IEEE 754 binary64 *)

Definition prec : Z := 53.
Definition emax : Z := 1024.

Definition float := spec_float.

Definition fadd : float -> float -> float := SFadd prec emax.
Definition fsub : float -> float -> float := SFsub prec emax.
Definition fmul : float -> float -> float := SFmul prec emax.
Definition fdiv : float -> float -> float := SFdiv prec emax.

Definition is_zero (f : float) : bool :=
  match f with S754_zero _ => true | _ => false end.

Definition is_inf (f : float) : bool :=
  match f with S754_infinity _ => true | _ => false end.

(** The quotient [n / d] of two positive integers, with the sign [neg],
    rounded once to the nearest binary64 (ties to even). *)
Definition round_quotient (neg : bool) (n d : positive) : float :=
  let '(q, e, l) := SFdiv_core_binary prec emax (Zpos n) 0 (Zpos d) 0 in
  binary_round_aux prec emax neg q e l.

(** [float(n)] for an int [n]: nearest binary64, [OverflowError] when it is
    out of range. *)
Definition float_of_int (z : Z) : result float :=
  let f := binary_normalize prec emax z 0 false in
  if is_inf f then Err OverflowError else Ok f.

(** ** Arithmetic on numbers ([int] and [float]) *)

Definition to_float (n : number) : result float :=
  match n with
  | PInt z => float_of_int z
  | PFloat f => Ok f
  end.

Definition lift_float (op : float -> float -> float) (a b : number)
  : result number :=
  rbind (to_float a) (fun x =>
  rbind (to_float b) (fun y => Ok (PFloat (op x y)))).

Definition add (a b : number) : result number :=
  match a, b with
  | PInt x, PInt y => Ok (PInt (x + y))
  | _, _ => lift_float fadd a b
  end.

Definition sub (a b : number) : result number :=
  match a, b with
  | PInt x, PInt y => Ok (PInt (x - y))
  | _, _ => lift_float fsub a b
  end.

Definition mul (a b : number) : result number :=
  match a, b with
  | PInt x, PInt y => Ok (PInt (x * y))
  | _, _ => lift_float fmul a b
  end.

(** [x / y] for two ints: the nearest float to the quotient; a zero
    dividend gives a zero with the sign of the divisor. *)
Definition int_truediv (x y : Z) : result number :=
  match y with
  | Z0 => Err ZeroDivisionError
  | _ =>
      let neg := xorb (x <? 0) (y <? 0) in
      match x with
      | Z0 => Ok (PFloat (S754_zero neg))
      | _ =>
          let f := round_quotient neg (Z.to_pos (Z.abs x)) (Z.to_pos (Z.abs y)) in
          if is_inf f then Err OverflowError else Ok (PFloat f)
      end
  end.

(** True division [a / b]. *)
Definition truediv (a b : number) : result number :=
  match a, b with
  | PInt x, PInt y => int_truediv x y
  | _, _ =>
      rbind (to_float a) (fun x =>
      rbind (to_float b) (fun y =>
        if is_zero y then Err ZeroDivisionError else Ok (PFloat (fdiv x y))))
  end.

(** The value of a finite float compared with an integer, exactly. *)
Definition float_eq_int (f : float) (z : Z) : bool :=
  match f with
  | S754_zero _ => Z.eqb z 0
  | S754_finite s m e =>
      let v := if s then Zneg m else Zpos m in
      match e with
      | Zneg k => Z.eqb v (z * Z.pow_pos 2 k)
      | _ => Z.eqb (v * 2 ^ e) z
      end
  | _ => false
  end.

(** [a == b]. *)
Definition eqb (a b : number) : bool :=
  match a, b with
  | PInt x, PInt y => Z.eqb x y
  | PFloat x, PFloat y => SFeqb x y
  | PFloat x, PInt y => float_eq_int x y
  | PInt x, PFloat y => float_eq_int y x
  end.

(** [sum(xs)]: the additions from left to right, starting from the int [0]
    (the compensated summation that recent interpreters apply to floats is
    not modelled). *)
Fixpoint sum_from (acc : number) (xs : list number) : result number :=
  match xs with
  | [] => Ok acc
  | x :: xs' => rbind (add acc x) (fun acc' => sum_from acc' xs')
  end.

Definition sum (xs : list number) : result number := sum_from (PInt 0) xs.

(** [math.ceil(x)]. *)
Definition ceil (x : number) : result Z :=
  match x with
  | PInt z => Ok z
  | PFloat f =>
      match f with
      | S754_zero _ => Ok 0
      | S754_infinity _ => Err OverflowError
      | S754_nan => Err ValueError
      | S754_finite s m e =>
          let v := if s then Zneg m else Zpos m in
          match e with
          | Zneg k => Ok (- ((- v) / Z.pow_pos 2 k))
          | _ => Ok (v * 2 ^ e)
          end
      end
  end.

(** ** Strings

    A [str] is a [string]: a sequence of characters with code points below
    256.  Selenium's [Keys] constants (private-use code points) are not
    characters of this model; they are the constructors of [Selenium.key]. *)

Definition chars : string -> list ascii := list_ascii_of_string.

(** [s.replace(old, new)]: every non-overlapping occurrence, from the left. *)
Fixpoint replace_from (old new : string) (skip : nat) (s : string) : string :=
  match s with
  | EmptyString => EmptyString
  | String c s' =>
      match skip with
      | S k => replace_from old new k s'
      | O =>
          if String.prefix old s
          then (new ++ replace_from old new (String.length old - 1)%nat s')%string
          else String c (replace_from old new 0 s')
      end
  end.

Fixpoint intersperse (new s : string) : string :=
  match s with
  | EmptyString => new
  | String c s' => (new ++ String c (intersperse new s'))%string
  end.

Definition replace (old new s : string) : string :=
  match old with
  | EmptyString => intersperse new s
  | _ => replace_from old new 0 s
  end.

(** [template.format(im=i)] for a template whose only braces are the
    replacement field [{im}]. *)
Definition format_im (template i : string) : string :=
  replace "{im}" i template.

(** Whitespace as [int()] and [float()] see it: tab to carriage return,
    space, next line and no-break space. *)
Definition is_space (c : ascii) : bool :=
  let n := N_of_ascii c in
  ((9 <=? n) && (n <=? 13) || (n =? 32) || (n =? 133) || (n =? 160))%N.

Definition is_digit (c : ascii) : bool :=
  let n := N_of_ascii c in ((48 <=? n) && (n <=? 57))%N.

Fixpoint lstrip (cs : list ascii) : list ascii :=
  match cs with
  | c :: cs' => if is_space c then lstrip cs' else cs
  | [] => []
  end.

Definition strip (cs : list ascii) : list ascii :=
  rev (lstrip (rev (lstrip cs))).

(** An optional sign: [true] for a minus. *)
Definition sign (cs : list ascii) : bool * list ascii :=
  match cs with
  | "-"%char :: r => (true, r)
  | "+"%char :: r => (false, r)
  | _ => (false, cs)
  end.

(** [digit (["_"] digit)*], after its first digit: the digits read and what
    is left. *)
Fixpoint digits_tail (cs : list ascii) : list ascii * list ascii :=
  match cs with
  | c :: cs' =>
      if is_digit c then
        let (ds, r) := digits_tail cs' in (c :: ds, r)
      else if Ascii.eqb c "_" then
        match cs' with
        | d :: cs'' =>
            if is_digit d then
              let (ds, r) := digits_tail cs'' in (d :: ds, r)
            else ([], cs)
        | [] => ([], cs)
        end
      else ([], cs)
  | [] => ([], [])
  end.

Definition digitpart (cs : list ascii) : option (list ascii * list ascii) :=
  match cs with
  | c :: cs' =>
      if is_digit c then
        let (ds, r) := digits_tail cs' in Some (c :: ds, r)
      else None
  | [] => None
  end.

(** The number written by a list of decimal digits. *)
Definition unsigned (ds : list ascii) : Z :=
  match NilEmpty.uint_of_string (string_of_list_ascii ds) with
  | Some u => Z.of_uint u
  | None => 0
  end.

Definition signed (neg : bool) (z : Z) : Z := if neg then - z else z.

(** [int(s)] for a [str] (the interpreter's limit on the number of digits is
    not modelled). *)
Definition int_of_str (s : string) : result Z :=
  let (neg, body) := sign (strip (chars s)) in
  match digitpart body with
  | Some (ds, []) => Ok (signed neg (unsigned ds))
  | _ => Err ValueError
  end.

(** [str(z)] for an int. *)
Definition str_of_int (z : Z) : string :=
  NilZero.string_of_int (Z.to_int z).

(** The float nearest to [m * 10^e]. *)
Definition decimal_value (neg : bool) (m e : Z) : float :=
  if m =? 0 then S754_zero neg
  else if 0 <=? e then binary_normalize prec emax (signed neg m * 10 ^ e) 0 false
  else round_quotient neg (Z.to_pos m) (Z.to_pos (10 ^ (- e))).

Definition lower (c : ascii) : ascii :=
  let n := N_of_ascii c in
  if ((65 <=? n) && (n <=? 90))%N then ascii_of_N (n + 32) else c.

Definition is_word (w : string) (cs : list ascii) : bool :=
  String.eqb (string_of_list_ascii (map lower cs)) w.

(** The exponent part: [("e" | "E") [sign] digitpart]; [None] when what is
    left is not an exponent. *)
Definition exponent (cs : list ascii) : option Z :=
  match cs with
  | [] => Some 0
  | c :: r =>
      if Ascii.eqb (lower c) "e" then
        let (neg, body) := sign r in
        match digitpart body with
        | Some (ds, []) => Some (signed neg (unsigned ds))
        | _ => None
        end
      else None
  end.

(** [[digitpart] "." digitpart | digitpart ["."]], then the exponent. *)
Definition floatnumber (neg : bool) (cs : list ascii) : result float :=
  let (ip, r1) :=
    match digitpart cs with
    | Some (ds, r) => (ds, r)
    | None => ([], cs)
    end in
  let (fp, r2) :=
    match r1 with
    | "."%char :: r =>
        match digitpart r with
        | Some (ds, r') => (ds, r')
        | None => ([], r)
        end
    | _ => ([], r1)
    end in
  match (ip ++ fp)%list with
  | [] => Err ValueError
  | ds =>
      match exponent r2 with
      | Some e =>
          Ok (decimal_value neg (unsigned ds) (e - Z.of_nat (List.length fp)))
      | None => Err ValueError
      end
  end.

(** [float(s)] for a [str]. *)
Definition float_of_str (s : string) : result float :=
  let (neg, body) := sign (strip (chars s)) in
  if is_word "inf" body || is_word "infinity" body then Ok (S754_infinity neg)
  else if is_word "nan" body then Ok S754_nan
  else floatnumber neg body.

End Py.

Import Py.

(* ===================================================================== *)
(** * Selenium *)
(* ===================================================================== *)

Module Selenium.

(** A [WebElement] is the reference under which the browser knows it. *)
Record WebElement := Element { ref : string }.

(** What [send_keys] can receive: characters and the [Keys] constants the
    script uses. *)
Inductive key :=
| Char (c : ascii)
| BACKSPACE
| ARROW_LEFT
| ARROW_RIGHT.

Definition typed (s : string) : list key := map Char (chars s).

(** [element.rect]. *)
Record Rect := { x : number; y : number; width : number; height : number }.

(** The steps of an [ActionChains]. *)
Inductive action :=
| click_and_hold (e : WebElement)
| move_by_offset (dx dy : Z)
| release.

(** The commands the script sends to the browser.  The two waits are
    [WebDriverWait(driver, timeout).until(EC.element_to_be_clickable(...))] and
    [...until(EC.presence_of_element_located(...))], both with [By.XPATH]. *)
Inductive command :=
| get (url : string)
| maximize_window
| until_clickable (timeout : Z) (xpath : string)
| until_present (timeout : Z) (xpath : string)
| find_element (xpath : string)
| click (e : WebElement)
| send_keys (e : WebElement) (keys : list key)
| get_attribute (e : WebElement) (name : string)
| rect (e : WebElement)
| text (e : WebElement)
| execute_script (script : string) (arg : option WebElement)
| perform (chain : list action)
| quit.

Definition reply (c : command) : Type :=
  match c with
  | until_clickable _ _ | until_present _ _ | find_element _ => WebElement
  | get_attribute _ _ => option string
  | rect _ => Rect
  | text _ => string
  | _ => unit
  end.

(** A browser answers every command, with a value or a Selenium exception,
    and moves to a new state. *)
Class Browser (W : Type) : Type :=
  respond : forall c : command, W -> (wd_exn + reply c) * W.

(** ** The monad of the methods *)

Record state (T W : Type) : Type :=
  State { self : T; browser : W; log : list command }.

Arguments State {T W} _ _ _.
Arguments self {T W} _.
Arguments browser {T W} _.
Arguments log {T W} _.

Definition M (T W A : Type) : Type := state T W -> result A * state T W.

Section Monad.
Context {T W : Type} `{Browser W}.

Definition ret {A} (a : A) : M T W A := fun st => (Ok a, st).

Definition bind {A B} (m : M T W A) (k : A -> M T W B) : M T W B :=
  fun st =>
    match m st with
    | (inl e, st') => (inl e, st')
    | (inr a, st') => k a st'
    end.

Definition raise {A} (e : exn) : M T W A := fun st => (Err e, st).

Definition lift {A} (r : result A) : M T W A := fun st => (r, st).

(** [try: m  except: h]: the bare [except] catches every exception. *)
Definition try_except {A} (m : M T W A) (h : M T W A) : M T W A :=
  fun st =>
    match m st with
    | (inl _, st') => h st'
    | (inr a, st') => (inr a, st')
    end.

(** Send [c] to the browser, recording it. *)
Definition call (c : command) : M T W (reply c) :=
  fun st =>
    let (r, w) := respond c (browser st) in
    (match r with inl e => Err (SeleniumException e) | inr a => Ok a end,
     State (self st) w (log st ++ [c])).

Definition read {A} (field : T -> A) : M T W A :=
  fun st => (Ok (field (self st)), st).

Definition assign (upd : T -> T) : M T W unit :=
  fun st => (Ok tt, State (upd (self st)) (browser st) (log st)).

(** [for _ in range(n): body]. *)
Fixpoint for_range (n : nat) (body : M T W unit) : M T W unit :=
  match n with
  | O => ret tt
  | S n' => bind body (fun _ => for_range n' body)
  end.

(** [for j in xs: body(j)]. *)
Fixpoint for_each {X} (xs : list X) (body : X -> M T W unit) : M T W unit :=
  match xs with
  | [] => ret tt
  | j :: xs' => bind (body j) (fun _ => for_each xs' body)
  end.
End Monad.

Declare Scope py_scope.
Delimit Scope py_scope with py.
Notation "x <- m ;; k" := (bind m (fun x => k))
  (at level 61, m at next level, right associativity) : py_scope.
Notation "m ;; k" := (bind m (fun _ => k))
  (at level 61, right associativity) : py_scope.

End Selenium.

Import Selenium.

(* ===================================================================== *)
(** * class RevenueCalculator *)
(* ===================================================================== *)

Module RevenueCalculator.

Local Open Scope py_scope.

(** The attributes of an instance.  [driver] is the browser state threaded by
    the monad; [wait] is the timeout of [WebDriverWait(driver, 10)]; the
    collected values are the floats appended by [checkbox_code]. *)
Record Calc := {
  wait : Z;
  value_field : option WebElement;
  slider_handle : option WebElement;
  slider_track : option WebElement;
  min_value : Z;
  max_value : Z;
  target_value : Z;
  amount : Z;
  total_Value_of_reimbursement : number;
  list_of_CPT_codes : list string;
  list_of_CPT_code_values : list float;
  full_xpath : string;
  revenue_element_xpath : string;
  total_patient_xpath : string
}.

(** [__init__]. *)
Definition init : Calc := {|
  wait := 10;
  value_field := None;
  slider_handle := None;
  slider_track := None;
  min_value := 0;
  max_value := 2000;
  target_value := 820;
  amount := 0;
  total_Value_of_reimbursement := PInt 0;
  list_of_CPT_codes := ["CPT-99091"; "CPT-99453"; "CPT-99454"; "CPT-99474"];
  list_of_CPT_code_values := [];
  full_xpath :=
    ("//p[text()='{im}']/following-sibling::label"
     ++ "[contains(@class,'MuiFormControlLabel-root')]//span[contains(@class,'MuiButtonBase-root')]")%string;
  revenue_element_xpath := "//div[text()='Revenue Calculator']";
  total_patient_xpath :=
    "//div[contains(@class,'MuiBox-root')]//p[contains(text(),'Total Individual Patient/Month')]/following-sibling::p"
|}.

(** Attribute assignments. *)
Definition set_value_field (v : option WebElement) (c : Calc) : Calc :=
  {| wait := wait c; value_field := v; slider_handle := slider_handle c;
     slider_track := slider_track c; min_value := min_value c;
     max_value := max_value c; target_value := target_value c;
     amount := amount c;
     total_Value_of_reimbursement := total_Value_of_reimbursement c;
     list_of_CPT_codes := list_of_CPT_codes c;
     list_of_CPT_code_values := list_of_CPT_code_values c;
     full_xpath := full_xpath c;
     revenue_element_xpath := revenue_element_xpath c;
     total_patient_xpath := total_patient_xpath c |}.

Definition set_slider_handle (v : option WebElement) (c : Calc) : Calc :=
  {| wait := wait c; value_field := value_field c; slider_handle := v;
     slider_track := slider_track c; min_value := min_value c;
     max_value := max_value c; target_value := target_value c;
     amount := amount c;
     total_Value_of_reimbursement := total_Value_of_reimbursement c;
     list_of_CPT_codes := list_of_CPT_codes c;
     list_of_CPT_code_values := list_of_CPT_code_values c;
     full_xpath := full_xpath c;
     revenue_element_xpath := revenue_element_xpath c;
     total_patient_xpath := total_patient_xpath c |}.

Definition set_slider_track (v : option WebElement) (c : Calc) : Calc :=
  {| wait := wait c; value_field := value_field c;
     slider_handle := slider_handle c; slider_track := v;
     min_value := min_value c; max_value := max_value c;
     target_value := target_value c; amount := amount c;
     total_Value_of_reimbursement := total_Value_of_reimbursement c;
     list_of_CPT_codes := list_of_CPT_codes c;
     list_of_CPT_code_values := list_of_CPT_code_values c;
     full_xpath := full_xpath c;
     revenue_element_xpath := revenue_element_xpath c;
     total_patient_xpath := total_patient_xpath c |}.

Definition set_amount (v : Z) (c : Calc) : Calc :=
  {| wait := wait c; value_field := value_field c;
     slider_handle := slider_handle c; slider_track := slider_track c;
     min_value := min_value c; max_value := max_value c;
     target_value := target_value c; amount := v;
     total_Value_of_reimbursement := total_Value_of_reimbursement c;
     list_of_CPT_codes := list_of_CPT_codes c;
     list_of_CPT_code_values := list_of_CPT_code_values c;
     full_xpath := full_xpath c;
     revenue_element_xpath := revenue_element_xpath c;
     total_patient_xpath := total_patient_xpath c |}.

Definition set_total_Value_of_reimbursement (v : number) (c : Calc) : Calc :=
  {| wait := wait c; value_field := value_field c;
     slider_handle := slider_handle c; slider_track := slider_track c;
     min_value := min_value c; max_value := max_value c;
     target_value := target_value c; amount := amount c;
     total_Value_of_reimbursement := v;
     list_of_CPT_codes := list_of_CPT_codes c;
     list_of_CPT_code_values := list_of_CPT_code_values c;
     full_xpath := full_xpath c;
     revenue_element_xpath := revenue_element_xpath c;
     total_patient_xpath := total_patient_xpath c |}.

(** [self.list_of_CPT_code_values.append(v)]. *)
Definition append_CPT_code_value (v : float) (c : Calc) : Calc :=
  {| wait := wait c; value_field := value_field c;
     slider_handle := slider_handle c; slider_track := slider_track c;
     min_value := min_value c; max_value := max_value c;
     target_value := target_value c; amount := amount c;
     total_Value_of_reimbursement := total_Value_of_reimbursement c;
     list_of_CPT_codes := list_of_CPT_codes c;
     list_of_CPT_code_values := list_of_CPT_code_values c ++ [v];
     full_xpath := full_xpath c;
     revenue_element_xpath := revenue_element_xpath c;
     total_patient_xpath := total_patient_xpath c |}.

Definition scroll_script : string :=
  "arguments[0].scrollIntoView({block: 'center', inline: 'center'});".

(** [v == s] for the value of [get_attribute], a [str] or [None]. *)
Definition equals_str (v : option string) (s : string) : bool :=
  match v with
  | Some s' => String.eqb s' s
  | None => false
  end.

(** [len(v)] and [int(v)] for the value of [get_attribute]. *)
Definition len (v : option string) : result nat :=
  match v with
  | Some s => Ok (String.length s)
  | None => Err TypeError
  end.

Definition int (v : option string) : result Z :=
  match v with
  | Some s => int_of_str s
  | None => Err TypeError
  end.

(** The value of [get_attribute] inside an f-string. *)
Definition shown (v : option string) : piece :=
  match v with
  | Some s => Str s
  | None => NoneVal
  end.

(** [text.replace("$", "").replace(",", "")]. *)
Definition strip_currency (text : string) : string :=
  replace "," "" (replace "$" "" text).

(** Line 189: [float(reimbursement.replace("$", "").replace(",", ""))]. *)
Definition parse_reimbursement (reimbursement : string) : result float :=
  float_of_str (strip_currency reimbursement).

(** Line 203: [int(total_recurring_reimbursement.replace("$", "")
    .replace(",", ""))]. *)
Definition parse_total (total_recurring_reimbursement : string) : result Z :=
  int_of_str (strip_currency total_recurring_reimbursement).

(** The locators written in the methods. *)
Definition handle_xpath : string := "//input[@type='range']".
Definition track_xpath : string := "//span[contains(@class,'MuiSlider-rail')]".
Definition field_xpath : string :=
  "//input[@type='number' and contains(@class,'MuiInputBase-input')]".
Definition total_xpath : string :=
  "//p[contains(text(),'Total Recurring Reimbursement for all Patients Per Month')]/following-sibling::p[1]".

Section Methods.
Context {W : Type} `{Browser W}.

(** An attribute holding an element; on [None] the method call on it
    raises [AttributeError]. *)
Definition element_of (field : Calc -> option WebElement)
  : M Calc W WebElement :=
  o <- read field ;;
  match o with
  | Some e => ret e
  | None => raise AttributeError
  end.

(** [self.wait.until(EC.element_to_be_clickable((By.XPATH, xp)))]. *)
Definition wait_clickable (xp : string) : M Calc W WebElement :=
  t <- read wait ;; call (until_clickable t xp).

(** [self.wait.until(EC.presence_of_element_located((By.XPATH, xp)))]. *)
Definition wait_present (xp : string) : M Calc W WebElement :=
  t <- read wait ;; call (until_present t xp).

Definition open_website (url : string) : M Calc W unit :=
  call (get url) ;;
  call maximize_window.

Definition click_revenue_calculator : M Calc W unit :=
  revenue_element <- wait_clickable "//div[text()='Revenue Calculator']" ;;
  call (click revenue_element).

Definition find_elements : M Calc W unit :=
  h <- wait_clickable handle_xpath ;;
  assign (set_slider_handle (Some h)) ;;
  t <- call (find_element track_xpath) ;;
  assign (set_slider_track (Some t)) ;;
  f <- call (find_element field_xpath) ;;
  assign (set_value_field (Some f)).

Definition clear_and_set_value (value : string) : M Calc W unit :=
  f <- element_of value_field ;;
  current <- call (get_attribute f "value") ;;
  n <- lift (len current) ;;
  call (send_keys f (repeat BACKSPACE n)) ;;
  f <- element_of value_field ;;
  call (send_keys f (typed value)).

(** The message of the [assert] is built only when the comparison fails,
    and reads the attribute again. *)
Definition check_value_in_textbox (expected_value : string)
  : M Calc W unit :=
  f <- element_of value_field ;;
  v <- call (get_attribute f "value") ;;
  if equals_str v expected_value then ret tt
  else
    f <- element_of value_field ;;
    found <- call (get_attribute f "value") ;;
    raise (AssertionError
             [Lit "Expected value "; Str expected_value;
              Lit " but found "; shown found; Lit "."]).

(** Lines 91-107: the target position in pixels and the drag. *)
Definition coarse_phase : M Calc W unit :=
  target <- read target_value ;;
  lo <- read min_value ;;
  hi <- read max_value ;;
  target_percentage <- lift (truediv (PInt (target - lo)) (PInt (hi - lo))) ;;
  track <- element_of slider_track ;;
  slider_track_rect <- call (rect track) ;;
  let slider_width := width slider_track_rect in
  let slider_start_x := x slider_track_rect in
  handle <- element_of slider_handle ;;
  slider_handle_rect <- call (rect handle) ;;
  let slider_handle_x := x slider_handle_rect in
  let slider_handle_width := width slider_handle_rect in
  part <- lift (mul slider_width target_percentage) ;;
  target_x <- lift (add slider_start_x part) ;;
  half <- lift (truediv slider_handle_width (PInt 2)) ;;
  target_x <- lift (sub target_x half) ;;
  distance <- lift (sub target_x slider_handle_x) ;;
  offset_x <- lift (ceil distance) ;;
  handle <- element_of slider_handle ;;
  call (perform [click_and_hold handle; move_by_offset offset_x 0; release]).

(** Lines 118 and 121: one pass of either loop. *)
Definition key_press (k : key) : M Calc W unit :=
  handle <- element_of slider_handle ;;
  call (send_keys handle [k]).

(** Lines 123-124: the value is read again and compared. *)
Definition recheck (slider_value : option string) : M Calc W unit :=
  handle <- element_of slider_handle ;;
  now <- call (get_attribute handle "aria-valuenow") ;;
  target <- read target_value ;;
  if equals_str now (str_of_int target) then ret tt
  else
    raise (AssertionError
             [Lit "Slider value mismatch: "; shown slider_value;
              Lit " != "; Num (PInt target)]).

(** Lines 110-124: the correction with the arrow keys. *)
Definition fine_phase : M Calc W unit :=
  handle <- element_of slider_handle ;;
  slider_value <- call (get_attribute handle "aria-valuenow") ;;
  target <- read target_value ;;
  current <- lift (int slider_value) ;;
  let number_of_keys := target - current in
  track <- read slider_track ;;
  call (execute_script scroll_script track) ;;
  if 0 <? number_of_keys then
    for_range (Z.to_nat number_of_keys) (key_press ARROW_RIGHT)
  else if number_of_keys <? 0 then
    for_range (Z.to_nat (Z.abs number_of_keys)) (key_press ARROW_LEFT)
  else
    recheck slider_value.

Definition move_slider_to_target : M Calc W unit :=
  coarse_phase ;;
  fine_phase.

Definition run (url : string) (target_value : string) : M Calc W unit :=
  open_website url ;;
  click_revenue_calculator ;;
  find_elements ;;
  move_slider_to_target ;;
  clear_and_set_value target_value ;;
  check_value_in_textbox target_value.

Definition generate_cpt_code_xpaths (c : Calc) : list string :=
  map (fun i => format_im (full_xpath c) i) (list_of_CPT_codes c).

Definition parent : string := "/parent::*/parent::*".

Definition recuring_text : string :=
  "//div[contains(@class,'MuiChip-root')]//span[text()='One Time']".

(** Lines 169-181: select the checkbox and read the amount beside it. *)
Definition select_and_scrape (locator : string) : M Calc W string :=
  checkbox_element <- wait_clickable locator ;;
  let a := (locator ++ parent)%string in
  parent_element <- wait_clickable a ;;
  call (execute_script scroll_script (Some parent_element)) ;;
  call (click checkbox_element) ;;
  span <- wait_present (locator ++ "/following-sibling::span")%string ;;
  call (text span).

(** Lines 183-189: the probe for the marker; any exception of the wait
    stores the amount. *)
Definition record_unless_one_time (locator reimbursement : string)
  : M Calc W unit :=
  try_except
    (let c := ((locator ++ parent) ++ recuring_text)%string in
     wait_present c ;;
     ret tt)
    (v <- lift (parse_reimbursement reimbursement) ;;
     assign (append_CPT_code_value v)).

Definition checkbox_code (locator : string) : M Calc W unit :=
  reimbursement <- select_and_scrape locator ;;
  record_unless_one_time locator reimbursement.

(** Lines 205-211: the patient count and the product. *)
Definition tally : M Calc W unit :=
  value_field <- call (find_element field_xpath) ;;
  value_of_patients <- call (get_attribute value_field "value") ;;
  values <- read list_of_CPT_code_values ;;
  s <- lift (sum (map PFloat values)) ;;
  p <- lift (int value_of_patients) ;;
  total <- lift (mul s (PInt p)) ;;
  assign (set_total_Value_of_reimbursement total).

Definition count_of_patients : M Calc W unit :=
  e <- wait_present total_xpath ;;
  total_recurring_reimbursement <- call (text e) ;;
  a <- lift (parse_total total_recurring_reimbursement) ;;
  assign (set_amount a) ;;
  tally.

Definition validation_of_total_recurring_reimbursement_per_month
  : M Calc W unit :=
  total <- read total_Value_of_reimbursement ;;
  a <- read amount ;;
  if eqb total (PInt a) then ret tt
  else
    raise (AssertionError
             [Lit "Mismatch of total recurring reimbursement per month: ";
              Num total; Lit " != "; Num (PInt a)]).

Definition execute (url : string) : M Calc W unit :=
  open_website url ;;
  click_revenue_calculator ;;
  calling <- read generate_cpt_code_xpaths ;;
  for_each calling (fun j => checkbox_code j) ;;
  count_of_patients ;;
  validation_of_total_recurring_reimbursement_per_month.

(** Lines 247-260: the script itself, on a fresh instance. *)
Definition script : M Calc W unit :=
  run "https://www.fitpeo.com/" "560" ;;
  execute "https://www.fitpeo.com/" ;;
  call quit.
End Methods.

End RevenueCalculator.

Import RevenueCalculator.

(* ===================================================================== *)
(** * The slider positioning as the specification words it *)
(* ===================================================================== *)

Module Spec.

(** [targetFraction = (target - min) / (max - min)]. *)
Definition targetFraction (lo hi target : Z) : result number :=
  truediv (PInt (target - lo)) (PInt (hi - lo)).

(** [targetPixelX = track.x + track.width * targetFraction - handle.width/2]. *)
Definition targetPixelX (lo hi target : Z) (track handle : Rect)
  : result number :=
  rbind (targetFraction lo hi target) (fun fraction =>
  rbind (mul (width track) fraction) (fun along =>
  rbind (add (x track) along) (fun position =>
  rbind (truediv (width handle) (PInt 2)) (fun half =>
  sub position half)))).

(** [pixelOffset = ceil(targetPixelX - handle.x)]. *)
Definition pixelOffset (lo hi target : Z) (track handle : Rect) : result Z :=
  rbind (targetPixelX lo hi target track handle) (fun px =>
  rbind (sub px (x handle)) ceil).

End Spec.

(* ===================================================================== *)
(** * The widgets the script relies on *)
(* ===================================================================== *)

Module Widget.

(** A text field with the caret at its end: a character is appended,
    [BACKSPACE] deletes the last one. *)
Fixpoint chop (s : string) : string :=
  match s with
  | EmptyString => EmptyString
  | String c EmptyString => EmptyString
  | String c s' => String c (chop s')
  end.

Definition press (s : string) (k : key) : string :=
  match k with
  | Char c => (s ++ String c EmptyString)%string
  | BACKSPACE => chop s
  | _ => s
  end.

Definition edit (ks : list key) (s : string) : string := fold_left press ks s.

Section Laws.
Context {W : Type} `{Browser W}.

(** [f] is a text field showing [content], in the browser states [Inv]. *)
Record text_field (Inv : W -> Prop) (f : WebElement) (content : W -> string)
  : Prop := {
  field_read : forall w, Inv w ->
    respond (get_attribute f "value") w = (inr (Some (content w)), w);
  field_keys : forall w ks, Inv w ->
    exists w', respond (send_keys f ks) w = (inr tt, w')
               /\ Inv w' /\ content w' = edit ks (content w)
}.

(** [h] is the handle of a slider of value [now] between [lo] and [hi]:
    [aria-valuenow] is the decimal text of the value, an arrow key moves it
    by one inside the range, and no command leaves [Inv]. *)
Record slider (Inv : W -> Prop) (h : WebElement) (now : W -> Z) (lo hi : Z)
  : Prop := {
  slider_stays : forall c w, Inv w -> Inv (snd (respond c w));
  slider_read : forall w, Inv w ->
    respond (get_attribute h "aria-valuenow") w
    = (inr (Some (str_of_int (now w))), w);
  slider_right : forall w, Inv w -> now w < hi ->
    exists w', respond (send_keys h [ARROW_RIGHT]) w = (inr tt, w')
               /\ now w' = now w + 1;
  slider_left : forall w, Inv w -> lo < now w ->
    exists w', respond (send_keys h [ARROW_LEFT]) w = (inr tt, w')
               /\ now w' = now w - 1;
  slider_scroll : forall w a, Inv w ->
    exists w', respond (execute_script scroll_script a) w = (inr tt, w')
               /\ now w' = now w
}.
End Laws.

End Widget.

Import Widget.

(* ===================================================================== *)
(** * A concrete browser: one page with the calculator *)
(* ===================================================================== *)

Module Page.

(** The statements below hold on every browser; this one is the simplest
    that behaves like the calculator page, and serves to run them. *)

(** A code of the page with the amount written beside its checkbox and
    whether the "One Time" chip is shown in its card. *)
Record row := { code : string; amount_text : string; one_time : bool }.

(** The page: a slider (its value, range, the step of an arrow key, where a
    drag by so many pixels lands, the geometry of rail and handle), the
    number field, the codes and the text of the monthly total. *)
Record page := {
  slider_now : Z;
  slider_min : Z;
  slider_max : Z;
  slider_step : Z;
  after_drag : Z -> Z;
  track_rect : Rect;
  handle_rect : Rect;
  field_value : string;
  rows : list row;
  total_text : string
}.

Definition checkbox_xpath (r : row) : string :=
  format_im (full_xpath init) (code r).

Definition clamp (lo hi v : Z) : Z := Z.max lo (Z.min hi v).

Definition with_slider (v : Z) (p : page) : page :=
  {| slider_now := v; slider_min := slider_min p; slider_max := slider_max p;
     slider_step := slider_step p; after_drag := after_drag p;
     track_rect := track_rect p; handle_rect := handle_rect p;
     field_value := field_value p; rows := rows p;
     total_text := total_text p |}.

Definition with_field (v : string) (p : page) : page :=
  {| slider_now := slider_now p; slider_min := slider_min p;
     slider_max := slider_max p; slider_step := slider_step p;
     after_drag := after_drag p; track_rect := track_rect p;
     handle_rect := handle_rect p; field_value := v; rows := rows p;
     total_text := total_text p |}.

(** The slider under the arrow keys. *)
Definition nudge (p : page) (k : key) : page :=
  match k with
  | ARROW_RIGHT =>
      with_slider (Z.min (slider_max p) (slider_now p + slider_step p)) p
  | ARROW_LEFT =>
      with_slider (Z.max (slider_min p) (slider_now p - slider_step p)) p
  | _ => p
  end.

(** Which elements exist. *)
Definition in_row (xp : string) (r : row) : bool :=
  let l := checkbox_xpath r in
  String.eqb xp l
  || String.eqb xp (l ++ parent)
  || String.eqb xp (l ++ "/following-sibling::span")
  || (one_time r && String.eqb xp ((l ++ parent) ++ recuring_text)).

Definition exists_on (p : page) (xp : string) : bool :=
  String.eqb xp "//div[text()='Revenue Calculator']"
  || String.eqb xp handle_xpath
  || String.eqb xp track_xpath
  || String.eqb xp field_xpath
  || String.eqb xp total_xpath
  || existsb (in_row xp) (rows p).

Definition text_of (p : page) (xp : string) : string :=
  if String.eqb xp total_xpath then total_text p
  else
    match find (fun r => String.eqb xp (checkbox_xpath r ++ "/following-sibling::span"))
               (rows p) with
    | Some r => amount_text r
    | None => ""
    end.

Definition zero_rect : Rect :=
  {| x := PInt 0; y := PInt 0; width := PInt 0; height := PInt 0 |}.

Definition answer (c : command) (p : page) : (wd_exn + reply c) * page :=
  match c return (wd_exn + reply c) * page with
  | get _ => (inr tt, p)
  | maximize_window => (inr tt, p)
  | until_clickable _ xp =>
      (if exists_on p xp then inr (Element xp) else inl TimeoutException, p)
  | until_present _ xp =>
      (if exists_on p xp then inr (Element xp) else inl TimeoutException, p)
  | find_element xp =>
      (if exists_on p xp then inr (Element xp)
       else inl NoSuchElementException, p)
  | click _ => (inr tt, p)
  | send_keys e ks =>
      if String.eqb (ref e) field_xpath
      then (inr tt, with_field (edit ks (field_value p)) p)
      else if String.eqb (ref e) handle_xpath
      then (inr tt, fold_left nudge ks p)
      else (inr tt, p)
  | get_attribute e name =>
      if String.eqb (ref e) field_xpath && String.eqb name "value"
      then (inr (Some (field_value p)), p)
      else if String.eqb (ref e) handle_xpath
              && String.eqb name "aria-valuenow"
      then (inr (Some (str_of_int (slider_now p))), p)
      else (inr None, p)
  | rect e =>
      if String.eqb (ref e) track_xpath then (inr (track_rect p), p)
      else if String.eqb (ref e) handle_xpath then (inr (handle_rect p), p)
      else (inr zero_rect, p)
  | text e => (inr (text_of p (ref e)), p)
  | execute_script _ _ => (inr tt, p)
  | perform chain =>
      match chain with
      | [click_and_hold e; move_by_offset dx _; release] =>
          if String.eqb (ref e) handle_xpath
          then (inr tt,
                with_slider
                  (clamp (slider_min p) (slider_max p) (after_drag p dx)) p)
          else (inr tt, p)
      | _ => (inr tt, p)
      end
  | quit => (inr tt, p)
  end.

#[export] Instance page_browser : Browser page := answer.

(** The page as the script expects it: slider from 0 to 2000 at 200, one
    unit per arrow key, a drag that lands a few units off, the four codes of
    which the second is one-time. *)
Definition fitpeo : page := {|
  slider_now := 200;
  slider_min := 0;
  slider_max := 2000;
  slider_step := 1;
  after_drag := fun dx => 200 + (dx * 2000) / 300 + 3;
  track_rect := {| x := PInt 480; y := PInt 600; width := PInt 300;
                   height := PInt 4 |};
  handle_rect := {| x := PFloat (S754_finite false 4507997673881600 (-43));
                    y := PInt 592; width := PInt 20; height := PInt 20 |};
  field_value := "50";
  rows := [ {| code := "CPT-99091"; amount_text := "$10";
               one_time := false |};
            {| code := "CPT-99453"; amount_text := "$19.19";
               one_time := true |};
            {| code := "CPT-99454"; amount_text := "$20";
               one_time := false |};
            {| code := "CPT-99474"; amount_text := "$5";
               one_time := false |} ];
  total_text := "$1,750"
|}.


Definition with_step (v : Z) (p : page) : page :=
  {| slider_now := slider_now p; slider_min := slider_min p;
     slider_max := slider_max p; slider_step := v;
     after_drag := after_drag p; track_rect := track_rect p;
     handle_rect := handle_rect p; field_value := field_value p;
     rows := rows p; total_text := total_text p |}.

(** The page after the drag, with the handle at 743. *)
Definition dragged : page := with_slider 743 fitpeo.

(** The same with a slider moving two units per key. *)
Definition two_step : page := with_step 2 dragged.

(** The page with the field reading ["560.0"]. *)
Definition reading_560_0 : page := with_field "560.0" fitpeo.


(** The locator of the checkbox of the first code. *)
Definition first_locator : string := format_im (full_xpath init) "CPT-99091".

(** The pages whose slider spans [lo .. hi] with one unit per key. *)
Definition unit_slider (lo hi : Z) (p : page) : Prop :=
  slider_step p = 1 /\ slider_min p = lo /\ slider_max p = hi.

(** The calculator once [find_elements] has run. *)
Definition ready : Calc :=
  set_value_field (Some (Element field_xpath))
    (set_slider_track (Some (Element track_xpath))
       (set_slider_handle (Some (Element handle_xpath)) init)).

(** The same configured with a range of a single value. *)
Definition degenerate : Calc := {|
  wait := wait ready;
  value_field := value_field ready;
  slider_handle := slider_handle ready;
  slider_track := slider_track ready;
  min_value := 820;
  max_value := 820;
  target_value := 820;
  amount := amount ready;
  total_Value_of_reimbursement := total_Value_of_reimbursement ready;
  list_of_CPT_codes := list_of_CPT_codes ready;
  list_of_CPT_code_values := list_of_CPT_code_values ready;
  full_xpath := full_xpath ready;
  revenue_element_xpath := revenue_element_xpath ready;
  total_patient_xpath := total_patient_xpath ready
|}.

(** The calculator once the amounts 10.0, 20.0 and 5.0 have been
    collected. *)
Definition collected : Calc :=
  append_CPT_code_value (S754_finite false 5629499534213120 (-50))
    (append_CPT_code_value (S754_finite false 5629499534213120 (-48))
       (append_CPT_code_value (S754_finite false 5629499534213120 (-49))
          init)).

End Page.

Import Page.

(* ===================================================================== *)
(** * Notions used in the statements *)
(* ===================================================================== *)

(** The characters of a currency text that are dropped. *)
Definition is_currency_mark (a : ascii) : bool :=
  Ascii.eqb a "$" || Ascii.eqb a ",".

Definition keep_but (c : ascii) (a : ascii) : bool := negb (Ascii.eqb c a).

(** The digits of [d] as [str()] writes them: ["0"] for no digit. *)
Definition written (d : Decimal.uint) : list ascii :=
  chars (NilZero.string_of_uint d).



(** [m] takes every state to an [R]-related one, whether it returns or
    raises. *)
Definition stable {T W A : Type} (R : state T W -> state T W -> Prop)
           (m : M T W A) : Prop :=
  forall st, R st (snd (m st)).

(** The attributes [view] shows are the same before and after. *)
Definition same {W V : Type} (view : Calc -> V) (st st' : state Calc W)
  : Prop :=
  view (self st') = view (self st).

(** The object is the same and the browser still a state satisfying
    [Inv]. *)
Definition settled {W : Type} (Inv : W -> Prop) (st st' : state Calc W)
  : Prop :=
  self st' = self st /\ (Inv (browser st) -> Inv (browser st')).

(** The state of the reimbursement scenario and the configuration of the
    slider scenario. *)
Definition reimbursement_state (c : Calc) : list float * Z * number :=
  (list_of_CPT_code_values c, amount c, total_Value_of_reimbursement c).

Definition slider_configuration (c : Calc) : Z * Z * Z :=
  (min_value c, max_value c, target_value c).

(** ** Notions for the properties beyond the specification *)

(** A browser in which every attribute and every text reads as one fixed
    string, every element exists and every command is accepted. *)
Definition echo (c : command) (s : string) : (wd_exn + reply c) * string :=
  match c return (wd_exn + reply c) * string with
  | until_clickable _ xp => (inr (Element xp), s)
  | until_present _ xp => (inr (Element xp), s)
  | find_element xp => (inr (Element xp), s)
  | get_attribute _ _ => (inr (Some s), s)
  | rect _ => (inr zero_rect, s)
  | text _ => (inr s, s)
  | get _ => (inr tt, s)
  | maximize_window => (inr tt, s)
  | click _ => (inr tt, s)
  | send_keys _ _ => (inr tt, s)
  | execute_script _ _ => (inr tt, s)
  | perform _ => (inr tt, s)
  | quit => (inr tt, s)
  end.

Definition echo_browser : Browser string := echo.

(** The commands added to the log all satisfy [P]. *)
Definition sends {T W : Type} (P : command -> Prop) (st st' : state T W)
  : Prop :=
  exists l, log st' = log st ++ l /\ Forall P l.

(** Typing, dragging, measuring and closing. *)
Definition acts_on_slider_or_session (c : command) : bool :=
  match c with
  | send_keys _ _ | perform _ | rect _ | quit => true
  | _ => false
  end.

(** Waiting for presence, reading a text and closing. *)
Definition scrapes_or_closes (c : command) : bool :=
  match c with
  | until_present _ _ | text _ | quit => true
  | _ => false
  end.


(** A wait of [c] carries the timeout [t]. *)
Definition waits_for (t : Z) (c : command) : Prop :=
  match c with
  | until_clickable t' _ | until_present t' _ => t' = t
  | _ => True
  end.

(** The timeout of the object is kept and every wait added to the log
    carries it. *)
Definition patient {W : Type} (st st' : state Calc W) : Prop :=
  wait (self st') = wait (self st)
  /\ sends (waits_for (wait (self st))) st st'.

(** The three elements of the slider scenario have been located. *)
Definition located (c : Calc) : Prop :=
  value_field c <> None /\ slider_handle c <> None /\ slider_track c <> None.

(** From a state with the elements located, [m] does not raise
    [AttributeError] and keeps them located. *)
Definition guarded {W A : Type} (m : M Calc W A) : Prop :=
  forall st, located (self st) ->
             fst (m st) <> Err AttributeError /\ located (self (snd (m st))).

(** The collected values are extended by at most [n] values. *)
Definition grows {W : Type} (n : nat) (st st' : state Calc W) : Prop :=
  exists l, list_of_CPT_code_values (self st')
            = list_of_CPT_code_values (self st) ++ l
            /\ (List.length l <= n)%nat.

(** The two ends of the locator template of [__init__]. *)
Definition xpath_before : string := "//p[text()='".

Definition xpath_after : string :=
  "']/following-sibling::label[contains(@class,'MuiFormControlLabel-root')]//span[contains(@class,'MuiButtonBase-root')]".

(** The calculator with the handle attribute pointing at the number field,
    an element without [aria-valuenow]. *)
Definition mislocated : Calc :=
  set_slider_handle (Some (Element field_xpath)) ready.

(** The page with an empty patient count. *)
Definition no_patients : page := with_field "" fitpeo.

(** The calculator with the field attribute pointing at the slider handle,
    an element without [value] on the page. *)
Definition misfield : Calc :=
  set_value_field (Some (Element handle_xpath)) ready.

(** A browser on a blank page: every wait times out and no element is
    found. *)
Definition blank (c : command) (u : unit) : (wd_exn + reply c) * unit :=
  match c return (wd_exn + reply c) * unit with
  | until_clickable _ _ => (inl TimeoutException, u)
  | until_present _ _ => (inl TimeoutException, u)
  | find_element _ => (inl NoSuchElementException, u)
  | get_attribute _ _ => (inr None, u)
  | rect _ => (inr zero_rect, u)
  | text _ => (inr "", u)
  | get _ => (inr tt, u)
  | maximize_window => (inr tt, u)
  | click _ => (inr tt, u)
  | send_keys _ _ => (inr tt, u)
  | execute_script _ _ => (inr tt, u)
  | perform _ => (inr tt, u)
  | quit => (inr tt, u)
  end.

Definition blank_browser : Browser unit := blank.

(** The locator of a code, by the template of [__init__]. *)
Definition locator_of (i : string) : string :=
  (xpath_before ++ i ++ xpath_after)%string.

(** The page with a first code whose amount is not a number. *)
Definition unpriced : page := {|
  slider_now := slider_now fitpeo;
  slider_min := slider_min fitpeo;
  slider_max := slider_max fitpeo;
  slider_step := slider_step fitpeo;
  after_drag := after_drag fitpeo;
  track_rect := track_rect fitpeo;
  handle_rect := handle_rect fitpeo;
  field_value := field_value fitpeo;
  rows := [ {| code := "CPT-99091"; amount_text := "n/a";
               one_time := false |} ];
  total_text := total_text fitpeo
|}.

(* ===================================================================== *)
(** * Facts about the built-ins *)
(* ===================================================================== *)

Section Builtins.

(** ** [replace] of a single character by nothing *)

Lemma chars_string (l : list ascii) : chars (string_of_list_ascii l) = l.
Proof. apply list_ascii_of_string_of_list_ascii. Qed.

Lemma replace_char_filter (c : ascii) (s : string) :
  chars (replace (String c EmptyString) "" s) = filter (keep_but c) (chars s).
Proof.
  unfold replace, keep_but.
  induction s as [|a s IH]; [reflexivity|].
  cbn [replace_from String.prefix String.length Nat.sub].
  destruct (ascii_dec c a) as [->|Hne].
  - destruct s; cbn [chars list_ascii_of_string filter];
      rewrite Ascii.eqb_refl; cbn [negb]; exact IH.
  - cbn [chars list_ascii_of_string filter].
    destruct (Ascii.eqb_spec c a) as [|_]; [contradiction|].
    cbn [negb]. f_equal. exact IH.
Qed.

Lemma strip_currency_filter (s : string) :
  chars (strip_currency s) = filter (fun a => negb (is_currency_mark a)) (chars s).
Proof.
  unfold strip_currency.
  change "," with (String ","%char EmptyString).
  change "$" with (String "$"%char EmptyString).
  rewrite !replace_char_filter.
  assert (E : forall a,
             negb (is_currency_mark a) = keep_but "$" a && keep_but "," a).
  { intro a. unfold is_currency_mark, keep_but.
    rewrite (Ascii.eqb_sym a "$"), (Ascii.eqb_sym a ",").
    destruct (Ascii.eqb "$" a), (Ascii.eqb "," a); reflexivity. }
  induction (chars s) as [|a l IH]; [reflexivity|].
  cbn [filter]. rewrite E.
  destruct (keep_but "$" a); cbn [andb filter]; [|exact IH].
  destruct (keep_but "," a); [f_equal|]; exact IH.
Qed.

(** ** [int()] reads back what [str()] writes *)

Lemma digit_not_space (c : ascii) : is_digit c = true -> is_space c = false.
Proof.
  destruct c as [[|] [|] [|] [|] [|] [|] [|] [|]];
    intro E; try discriminate E; reflexivity.
Qed.

Lemma digit_not_sign (c : ascii) (l : list ascii) :
  is_digit c = true -> sign (c :: l) = (false, c :: l).
Proof.
  destruct c as [[|] [|] [|] [|] [|] [|] [|] [|]];
    intro E; try discriminate E; reflexivity.
Qed.

Lemma lstrip_head (c : ascii) (l : list ascii) :
  is_space c = false -> lstrip (c :: l) = c :: l.
Proof. intro E. cbn [lstrip]. now rewrite E. Qed.

Lemma strip_solid (l : list ascii) :
  Forall (fun c => is_space c = false) l -> strip l = l.
Proof.
  intro F. unfold strip.
  assert (L : forall k, Forall (fun c => is_space c = false) k ->
                        lstrip k = k).
  { intros [|c k] Fk; [reflexivity|].
    apply lstrip_head. now inversion Fk. }
  rewrite (L l F), (L (rev l)), rev_involutive; [reflexivity|].
  now apply Forall_rev.
Qed.

Lemma digits_tail_digits (l : list ascii) :
  Forall (fun c => is_digit c = true) l -> digits_tail l = (l, []).
Proof.
  induction 1 as [|c l Hc _ IH]; [reflexivity|].
  cbn [digits_tail]. now rewrite Hc, IH.
Qed.

Lemma uint_digits (d : Decimal.uint) :
  Forall (fun c => is_digit c = true) (chars (NilEmpty.string_of_uint d)).
Proof.
  induction d; cbn [NilEmpty.string_of_uint chars list_ascii_of_string];
    constructor; try reflexivity; assumption.
Qed.

Lemma unsigned_uint (d : Decimal.uint) :
  unsigned (chars (NilEmpty.string_of_uint d)) = Z.of_uint d.
Proof.
  unfold unsigned, chars.
  now rewrite string_of_list_ascii_of_string, NilEmpty.usu.
Qed.

Lemma written_digits (d : Decimal.uint) :
  exists c l, written d = c :: l
              /\ Forall (fun a => is_digit a = true) (c :: l)
              /\ unsigned (c :: l) = Z.of_uint d.
Proof.
  destruct d.
  1: { exists "0"%char, [].
       split; [reflexivity | split; [repeat constructor | reflexivity]]. }
  all: match goal with
       | |- context [written ?D] =>
           pose proof (uint_digits D) as F; pose proof (unsigned_uint D) as V;
           unfold written; change (NilZero.string_of_uint D)
             with (NilEmpty.string_of_uint D)
       end;
    cbn [NilEmpty.string_of_uint chars list_ascii_of_string] in *;
    eexists; eexists; split; [reflexivity | split; assumption].
Qed.

Lemma int_of_chars_digits (neg : bool) (c : ascii) (l : list ascii) :
  Forall (fun a => is_digit a = true) (c :: l) ->
  int_of_str (string_of_list_ascii
                ((if neg then ["-"%char] else []) ++ c :: l))
  = Ok (signed neg (unsigned (c :: l))).
Proof.
  intro F. unfold int_of_str. rewrite chars_string.
  assert (Fs : Forall (fun a => is_space a = false) (c :: l)).
  { eapply Forall_impl; [|exact F]. apply digit_not_space. }
  rewrite strip_solid.
  - assert (S : sign ((if neg then ["-"%char] else []) ++ c :: l)
                = (neg, c :: l)).
    { destruct neg; [reflexivity|]. apply digit_not_sign. now inversion F. }
    rewrite S. unfold digitpart.
    inversion F as [|? ? Hc Hl]; subst.
    now rewrite Hc, (digits_tail_digits l Hl).
  - destruct neg; [constructor; [reflexivity|]|]; exact Fs.
Qed.

Lemma int_of_str_of_int (z : Z) : int_of_str (str_of_int z) = Ok z.
Proof.
  unfold str_of_int.
  rewrite <- (DecimalZ.of_to z) at 2.
  destruct (Z.to_int z) as [d|d];
    destruct (written_digits d) as (c & l & E & F & V);
    unfold written, chars in E.
  - cbn [NilZero.string_of_int Z.of_int].
    rewrite <- (string_of_list_ascii_of_string (NilZero.string_of_uint d)), E.
    pose proof (int_of_chars_digits false c l F) as R.
    cbn [app] in R. rewrite R, V. reflexivity.
  - cbn [NilZero.string_of_int Z.of_int].
    rewrite <- (string_of_list_ascii_of_string (NilZero.string_of_uint d)), E.
    pose proof (int_of_chars_digits true c l F) as R.
    cbn [app string_of_list_ascii] in R |- *. rewrite R, V. reflexivity.
Qed.

(** ** The characters [int()] accepts *)








(** ** [float()] *)

Lemma float_of_str_error (s : string) (e : exn) :
  float_of_str s = Err e -> e = ValueError.
Proof.
  unfold float_of_str. destruct (sign _) as [neg body].
  destruct (is_word "inf" body || is_word "infinity" body); [discriminate|].
  destruct (is_word "nan" body); [discriminate|].
  unfold floatnumber.
  destruct (match digitpart body with
            | Some (ds, r) => (ds, r)
            | None => ([], body)
            end) as [ip r1].
  destruct (match r1 with
            | "."%char :: r =>
                match digitpart r with
                | Some (ds, r') => (ds, r')
                | None => ([], r)
                end
            | _ => ([], r1)
            end) as [fp r2].
  destruct (ip ++ fp); [now intros [= <-]|].
  destruct (exponent r2); [discriminate | now intros [= <-]].
Qed.

(** C5, amended.  Currency parsing removes every ['$'] and [','] (and
    nothing else) and then applies [float()]: it yields a float or raises
    [ValueError], there is no other outcome; ["$1,234.00"] parses to the
    float 1234.00, equal to 1234, and ["$0"] to zero. *)
Theorem currency_parsing_strips_then_converts :
  (forall text,
      chars (strip_currency text)
      = filter (fun a => negb (is_currency_mark a)) (chars text))
  /\ (forall text,
        (exists v, parse_reimbursement text = Ok v)
        \/ parse_reimbursement text = Err ValueError)
  /\ (parse_reimbursement "$1,234.00" = float_of_str "1234.00"
      /\ exists v, parse_reimbursement "$1,234.00" = Ok v
                   /\ eqb (PFloat v) (PInt 1234) = true)
  /\ (exists v, parse_reimbursement "$0" = Ok v
                /\ eqb (PFloat v) (PInt 0) = true).
Proof.
  split; [exact strip_currency_filter|]. split; [|split].
  - intro text. unfold parse_reimbursement.
    destruct (float_of_str (strip_currency text)) as [e|v] eqn:E.
    + right. now rewrite (float_of_str_error _ _ E).
    + left. now exists v.
  - split; [vm_compute; reflexivity|].
    eexists. split; vm_compute; reflexivity.
  - eexists. split; vm_compute; reflexivity.
Qed.

End Builtins.

(* ===================================================================== *)
(** * Properties of the methods, on every browser *)
(* ===================================================================== *)

Local Open Scope py_scope.

Section Stepping.
Context {T W : Type} `{Browser W}.

Lemma bind_call (c : command) {B} (k : reply c -> M T W B) (st : state T W) :
  bind (call c) k st =
  match respond c (browser st) with
  | (inl e, w) => (Err (SeleniumException e), State (self st) w (log st ++ [c]))
  | (inr a, w) => k a (State (self st) w (log st ++ [c]))
  end.
Proof.
  unfold bind, call. now destruct (respond c (browser st)) as [[e|a] w].
Qed.

Lemma bind_read {A B} (field : T -> A) (k : A -> M T W B) (st : state T W) :
  bind (read field) k st = k (field (self st)) st.
Proof. reflexivity. Qed.

Lemma bind_lift {A B} (r : result A) (k : A -> M T W B) (st : state T W) :
  bind (lift r) k st =
  match r with inl e => (inl e, st) | inr a => k a st end.
Proof. unfold bind, lift. now destruct r. Qed.

Lemma bind_bind {A B C} (m : M T W A) (k : A -> M T W B)
      (k' : B -> M T W C) (st : state T W) :
  bind (bind m k) k' st = bind m (fun a => bind (k a) k') st.
Proof. unfold bind. now destruct (m st) as [[e|a] st']. Qed.
End Stepping.

Section TextBox.
Context {W : Type} `{Browser W}.

Lemma element_of_some (field : Calc -> option WebElement) (e : WebElement)
      {B} (k : WebElement -> M Calc W B) (st : state Calc W) :
  field (self st) = Some e -> bind (element_of field) k st = k e st.
Proof.
  intro E. unfold element_of. rewrite bind_bind, bind_read, E. reflexivity.
Qed.

Lemma bind_wait_present (xp : string) {B} (k : WebElement -> M Calc W B)
      (st : state Calc W) :
  bind (wait_present xp) k st =
  let c := until_present (wait (self st)) xp in
  match respond c (browser st) with
  | (inl e, w) => (Err (SeleniumException e), State (self st) w (log st ++ [c]))
  | (inr a, w) => k a (State (self st) w (log st ++ [c]))
  end.
Proof.
  cbv zeta. unfold wait_present, bind, read, call, Ok.
  cbv beta iota.
  now destruct (respond _ (browser st)) as [[e|a] w].
Qed.

Lemma bind_wait_clickable (xp : string) {B} (k : WebElement -> M Calc W B)
      (st : state Calc W) :
  bind (wait_clickable xp) k st =
  let c := until_clickable (wait (self st)) xp in
  match respond c (browser st) with
  | (inl e, w) => (Err (SeleniumException e), State (self st) w (log st ++ [c]))
  | (inr a, w) => k a (State (self st) w (log st ++ [c]))
  end.
Proof.
  cbv zeta. unfold wait_clickable, bind, read, call, Ok.
  cbv beta iota.
  now destruct (respond _ (browser st)) as [[e|a] w].
Qed.

Lemma equals_str_iff (v : option string) (s : string) :
  equals_str v s = true <-> v = Some s.
Proof.
  destruct v as [s'|]; cbn; [|split; discriminate].
  rewrite String.eqb_eq. split; [now intros -> | now intros [= ->]].
Qed.

Lemma check_value_in_textbox_result
      (c : Calc) (w : W) (lg : list command) (f : WebElement)
      (v : option string) (expected : string) :
  value_field c = Some f ->
  respond (get_attribute f "value") w = (inr v, w) ->
  fst (check_value_in_textbox expected (State c w lg))
  = if equals_str v expected then Ok tt
    else Err (AssertionError
                [Lit "Expected value "; Str expected; Lit " but found ";
                 shown v; Lit "."]).
Proof.
  intros Hf Hr. unfold check_value_in_textbox.
  rewrite (element_of_some _ f) by exact Hf.
  rewrite bind_call. cbn [browser self log]. rewrite Hr.
  destruct (equals_str v expected); [reflexivity|].
  rewrite (element_of_some _ f) by exact Hf.
  rewrite bind_call. cbn [browser self log]. rewrite Hr. reflexivity.
Qed.

(** C6.  When the field is read as [v] (a text or [None]) and reading
    leaves the browser as it is, [check_value_in_textbox expected] returns
    normally exactly when [v] is the very string [expected]; otherwise it
    raises the [AssertionError] whose message carries the expected and the
    found text.  The comparison is on strings: with ["560"] expected, a
    field reading ["560.0"] or ["0560"] fails. *)
Theorem check_value_in_textbox_exact
        (c : Calc) (w : W) (lg : list command) (f : WebElement)
        (v : option string) (expected : string) :
  value_field c = Some f ->
  respond (get_attribute f "value") w = (inr v, w) ->
  let r := fst (check_value_in_textbox expected (State c w lg)) in
  (r = Ok tt <-> v = Some expected)
  /\ (v <> Some expected ->
      r = Err (AssertionError
                 [Lit "Expected value "; Str expected; Lit " but found ";
                  shown v; Lit "."]))
  /\ (expected = "560" -> v = Some "560.0" \/ v = Some "0560" ->
      is_ok r = false).
Proof.
  intros Hf Hr r. subst r.
  rewrite (check_value_in_textbox_result c w lg f v expected Hf Hr).
  split; [|split].
  - rewrite <- equals_str_iff.
    destruct (equals_str v expected); split; (reflexivity || discriminate).
  - intro N. destruct (equals_str v expected) eqn:E; [|reflexivity].
    now apply equals_str_iff in E.
  - intros -> [-> | ->]; reflexivity.
Qed.

Lemma chop_length (s : string) :
  String.length (chop s) = pred (String.length s).
Proof.
  induction s as [|c s IH]; [reflexivity|].
  destruct s as [|d s]; [reflexivity|].
  change (chop (String c (String d s))) with (String c (chop (String d s))).
  cbn [String.length] in *. now rewrite IH.
Qed.

Lemma edit_backspaces (n : nat) :
  forall s, (String.length s <= n)%nat -> edit (repeat BACKSPACE n) s = "".
Proof.
  induction n as [|n IH]; intros s L.
  - destruct s; [reflexivity | cbn in L; lia].
  - cbn [repeat edit fold_left press]. apply IH.
    rewrite chop_length. lia.
Qed.

Lemma edit_typed (v : string) : forall s, edit (typed v) s = (s ++ v)%string.
Proof.
  unfold edit, typed, chars.
  induction v as [|c v IH]; intro s; cbn [list_ascii_of_string map fold_left].
  - clear. induction s as [|a s IH]; [reflexivity | cbn; now rewrite <- IH].
  - rewrite IH. cbn [press]. clear.
    induction s as [|a s IH]; [reflexivity | cbn; now rewrite IH].
Qed.

(** C7.  On a text field, [clear_and_set_value v] reads the field, sends
    one [BACKSPACE] per character found in it and then the characters of
    [v], in that order and nothing else; the field then holds [v] whatever
    it held before, so that [check_value_in_textbox v] returns normally. *)
Theorem clear_and_set_value_then_check
        (Inv : W -> Prop) (f : WebElement) (content : W -> string)
        (c : Calc) (w : W) (lg : list command) (v : string) :
  text_field Inv f content ->
  value_field c = Some f ->
  Inv w ->
  exists w',
    clear_and_set_value v (State c w lg)
    = (Ok tt,
       State c w'
             (lg ++ [get_attribute f "value";
                     send_keys f (repeat BACKSPACE
                                         (String.length (content w)));
                     send_keys f (typed v)]))
    /\ content w' = v
    /\ forall lg', fst (check_value_in_textbox v (State c w' lg')) = Ok tt.
Proof.
  intros [Hread Hkeys] Hf Hw.
  destruct (Hkeys w (repeat BACKSPACE (String.length (content w))) Hw)
    as (w1 & K1 & Hw1 & C1).
  destruct (Hkeys w1 (typed v) Hw1) as (w2 & K2 & Hw2 & C2).
  rewrite edit_backspaces in C1 by lia.
  rewrite C1, edit_typed in C2. cbn [append] in C2.
  exists w2. split; [|split; [exact C2|]].
  - unfold clear_and_set_value.
    rewrite (element_of_some _ f) by exact Hf.
    rewrite bind_call. cbn [browser self log]. rewrite (Hread w Hw).
    rewrite bind_lift. cbn [len Ok].
    rewrite bind_call. cbn [browser self log]. rewrite K1.
    rewrite (element_of_some _ f) by exact Hf.
    unfold call. cbn [browser self log]. rewrite K2.
    rewrite <- !app_assoc. reflexivity.
  - intro lg'.
    rewrite (check_value_in_textbox_result c w2 lg' f (Some v) v Hf).
    + cbn [equals_str]. now rewrite String.eqb_refl.
    + rewrite <- C2. now apply Hread.
Qed.
End TextBox.

(** ** What a method leaves as it is *)

Section Stable.
Context {T W : Type} `{Browser W}.
Variable R : state T W -> state T W -> Prop.
Hypothesis R_refl : forall st, R st st.
Hypothesis R_trans : forall a b c, R a b -> R b c -> R a c.

Lemma stable_ret {A} (a : A) : stable R (ret a).
Proof. intro st. apply R_refl. Qed.

Lemma stable_raise {A} (e : exn) : stable R (raise (A:=A) e).
Proof. intro st. apply R_refl. Qed.

Lemma stable_lift {A} (r : result A) : stable R (lift r).
Proof. intro st. apply R_refl. Qed.

Lemma stable_read {A} (field : T -> A) : stable R (read field).
Proof. intro st. apply R_refl. Qed.

Lemma stable_bind {A B} (m : M T W A) (k : A -> M T W B) :
  stable R m -> (forall a, stable R (k a)) -> stable R (bind m k).
Proof.
  intros Hm Hk st. unfold bind. specialize (Hm st).
  destruct (m st) as [[e|a] st']; [exact Hm|].
  eapply R_trans; [exact Hm | apply Hk].
Qed.

Lemma stable_try {A} (m h : M T W A) :
  stable R m -> stable R h -> stable R (try_except m h).
Proof.
  intros Hm Hh st. unfold try_except. specialize (Hm st).
  destruct (m st) as [[e|a] st']; [|exact Hm].
  eapply R_trans; [exact Hm | apply Hh].
Qed.

Lemma stable_for_range (n : nat) (body : M T W unit) :
  stable R body -> stable R (for_range n body).
Proof.
  intro Hb. induction n; [apply stable_ret|].
  apply stable_bind; [exact Hb | intros _; exact IHn].
Qed.

Lemma stable_for_each {X} (xs : list X) (body : X -> M T W unit) :
  (forall j, stable R (body j)) -> stable R (for_each xs body).
Proof.
  intro Hb. induction xs; [apply stable_ret|].
  apply stable_bind; [apply Hb | intros _; exact IHxs].
Qed.

Lemma stable_if {A} (b : bool) (m m' : M T W A) :
  stable R m -> stable R m' -> stable R (if b then m else m').
Proof. now destruct b. Qed.
End Stable.

(** Breaks a method into its statements; [refl] and [trans] are the two
    facts about the relation, [leaf] deals with commands and assignments. *)
Ltac stable_steps refl trans leaf :=
  repeat first
    [ apply (stable_bind _ trans)
    | apply (stable_try _ trans)
    | apply (stable_for_range _ refl trans)
    | apply (stable_for_each _ refl trans)
    | apply stable_if
    | apply (stable_ret _ refl)
    | apply (stable_raise _ refl)
    | apply (stable_lift _ refl)
    | apply (stable_read _ refl)
    | match goal with
      | |- stable _ (match ?o with _ => _ end) => destruct o
      end
    | leaf
    | intro ].

Section Frame.
Context {W : Type} `{Browser W}.

Lemma same_refl {V} (view : Calc -> V) (st : state Calc W) :
  same view st st.
Proof. reflexivity. Qed.

Lemma same_trans {V} (view : Calc -> V) (a b c : state Calc W) :
  same view a b -> same view b c -> same view a c.
Proof. unfold same. congruence. Qed.

Lemma same_call {V} (view : Calc -> V) (c : command) :
  stable (same view) (call c).
Proof.
  intro st. unfold call. now destruct (respond c (browser st)).
Qed.

Lemma same_assign {V} (view : Calc -> V) (upd : Calc -> Calc) :
  (forall c, view (upd c) = view c) ->
  stable (same view) (assign (W:=W) upd).
Proof. intros E st. apply E. Qed.

End Frame.

Ltac frame view :=
  cbv zeta;
  match goal with
  | |- @stable _ ?W0 _ _ _ =>
      stable_steps (@same_refl W0 _ view) (@same_trans W0 _ view)
        ltac:(first
                [ apply same_call
                | apply same_assign; reflexivity
                | match goal with
                  | |- same _ ?st (snd (call ?c ?st)) =>
                      exact (same_call view c st)
                  end ])
  end.

Section Scenarios.
Context {W : Type} `{Browser W}.

Lemma run_keeps_reimbursement (url tv : string) :
  stable (same reimbursement_state) (run url tv).
Proof.
  unfold run, open_website, click_revenue_calculator, find_elements,
    move_slider_to_target, coarse_phase, fine_phase, clear_and_set_value,
    check_value_in_textbox, wait_clickable, wait_present, element_of.
  frame reimbursement_state.
Qed.

Lemma execute_keeps_slider (url : string) :
  stable (same slider_configuration) (execute url).
Proof.
  unfold execute, open_website, click_revenue_calculator, checkbox_code,
    select_and_scrape, record_unless_one_time, count_of_patients,
    validation_of_total_recurring_reimbursement_per_month,
    wait_clickable, wait_present, element_of.
  frame slider_configuration.
Qed.

(** C8.  Whatever the browser answers and however the run ends, [run]
    leaves the collected values, the parsed aggregate and the computed
    total as they were, and [execute] leaves [min_value], [max_value] and
    [target_value] as they were. *)
Theorem scenarios_share_no_state
        (url tv : string) (c : Calc) (w : W) (lg : list command) :
  let after_run := self (snd (run url tv (State c w lg))) in
  let after_execute := self (snd (execute url (State c w lg))) in
  (list_of_CPT_code_values after_run = list_of_CPT_code_values c
   /\ amount after_run = amount c
   /\ total_Value_of_reimbursement after_run
      = total_Value_of_reimbursement c)
  /\ (min_value after_execute = min_value c
      /\ max_value after_execute = max_value c
      /\ target_value after_execute = target_value c).
Proof.
  cbv zeta.
  pose proof (run_keeps_reimbursement url tv (State c w lg)) as R.
  pose proof (execute_keeps_slider url (State c w lg)) as E.
  unfold same, reimbursement_state, slider_configuration in R, E.
  cbn [self] in R, E.
  injection R as R1 R2 R3. injection E as E1 E2 E3. auto.
Qed.
End Scenarios.

Section Slider.
Context {W : Type} `{Browser W}.

(** ** The coarse phase *)

Lemma coarse_phase_zero_range (c : Calc) (w : W) (lg : list command) :
  min_value c = max_value c ->
  coarse_phase (State c w lg) = (Err ZeroDivisionError, State c w lg).
Proof.
  intro E. unfold coarse_phase.
  rewrite !bind_read, bind_lift. cbn [self].
  rewrite E, Z.sub_diag. reflexivity.
Qed.

(** C3.  With the rail and the handle measured as [tr] and [hr],
    [move_slider_to_target] drags the handle by exactly the
    [Spec.pixelOffset] of the specification (and raises what that
    computation raises); and the fraction for 820 in [0, 2000] is the
    float 0.41. *)
Theorem coarse_phase_pixel_offset
        (c : Calc) (w w1 w2 : W) (lg : list command) (t h : WebElement)
        (tr hr : Rect) :
  slider_track c = Some t ->
  slider_handle c = Some h ->
  respond (rect t) w = (inr tr, w1) ->
  respond (rect h) w1 = (inr hr, w2) ->
  match Spec.pixelOffset (min_value c) (max_value c) (target_value c) tr hr
  with
  | inr off =>
      coarse_phase (State c w lg)
      = call (perform [click_and_hold h; move_by_offset off 0; release])
             (State c w2 (lg ++ [rect t; rect h]))
  | inl e => fst (coarse_phase (State c w lg)) = Err e
  end
  /\ Spec.targetFraction (min_value init) (max_value init) (target_value init)
     = rbind (float_of_str "0.41") (fun f => Ok (PFloat f)).
Proof.
  intros Ht Hh Rt Rh. split; [|vm_compute; reflexivity].
  unfold Spec.pixelOffset, Spec.targetPixelX, Spec.targetFraction,
    coarse_phase.
  rewrite !bind_read, bind_lift. cbn [self].
  destruct (truediv _ _) as [e|fraction]; [reflexivity|]. cbn [rbind].
  rewrite (element_of_some _ t) by exact Ht.
  rewrite bind_call. cbn [browser self log]. rewrite Rt.
  rewrite (element_of_some _ h) by exact Hh.
  rewrite bind_call. cbn [browser self log]. rewrite Rh.
  rewrite bind_lift.
  destruct (mul (width tr) fraction) as [e|along]; [reflexivity|].
  cbn [rbind]. rewrite bind_lift.
  destruct (add (x tr) along) as [e|position]; [reflexivity|].
  cbn [rbind]. rewrite bind_lift.
  destruct (truediv (width hr) (PInt 2)) as [e|half]; [reflexivity|].
  cbn [rbind]. rewrite bind_lift.
  destruct (sub position half) as [e|px]; [reflexivity|].
  cbn [rbind]. rewrite bind_lift.
  destruct (sub px (x hr)) as [e|distance]; [reflexivity|].
  cbn [rbind]. rewrite bind_lift.
  destruct (ceil distance) as [e|off]; [reflexivity|].
  rewrite (element_of_some _ h) by exact Hh.
  rewrite <- app_assoc. reflexivity.
Qed.

(** ** The fine phase *)

Lemma fine_phase_after_reading
      (c : Calc) (w w1 w2 : W) (lg : list command) (h : WebElement)
      (s : string) (v : Z) :
  slider_handle c = Some h ->
  respond (get_attribute h "aria-valuenow") w = (inr (Some s), w1) ->
  int_of_str s = Ok v ->
  respond (execute_script scroll_script (slider_track c)) w1 = (inr tt, w2) ->
  fine_phase (State c w lg)
  = (if 0 <? target_value c - v then
       for_range (Z.to_nat (target_value c - v)) (key_press ARROW_RIGHT)
     else if target_value c - v <? 0 then
       for_range (Z.to_nat (Z.abs (target_value c - v)))
                 (key_press ARROW_LEFT)
     else recheck (Some s))
      (State c w2
             (lg ++ [get_attribute h "aria-valuenow";
                     execute_script scroll_script (slider_track c)])).
Proof.
  intros Hh Hr Hv Hs. unfold fine_phase.
  rewrite (element_of_some _ h) by exact Hh.
  rewrite bind_call. cbn [browser self log]. rewrite Hr.
  rewrite bind_read, bind_lift. cbn [self int]. rewrite Hv. unfold Ok.
  rewrite bind_read, bind_call. cbn [browser self log]. rewrite Hs.
  rewrite <- app_assoc. reflexivity.
Qed.

Lemma key_press_step (k : key) (h : WebElement) (st : state Calc W) :
  slider_handle (self st) = Some h ->
  key_press k st
  = (match fst (respond (send_keys h [k]) (browser st)) with
     | inl e => Err (SeleniumException e)
     | inr _ => Ok tt
     end,
     State (self st) (snd (respond (send_keys h [k]) (browser st)))
           (log st ++ [send_keys h [k]])).
Proof.
  intro Hh. unfold key_press.
  rewrite (element_of_some _ h) by exact Hh.
  unfold call.
  now destruct (respond (send_keys h [k]) (browser st)) as [[e|[]] w'].
Qed.

Lemma key_loop_step (k : key) (h : WebElement) (n : nat)
      (st : state Calc W) :
  slider_handle (self st) = Some h ->
  let st1 := State (self st) (snd (respond (send_keys h [k]) (browser st)))
                   (log st ++ [send_keys h [k]]) in
  for_range (S n) (key_press k) st
  = match fst (respond (send_keys h [k]) (browser st)) with
    | inl e => (Err (SeleniumException e), st1)
    | inr _ => for_range n (key_press k) st1
    end.
Proof.
  intro Hh. cbn [for_range]. unfold bind at 1.
  rewrite (key_press_step k h st Hh).
  now destruct (fst (respond (send_keys h [k]) (browser st))).
Qed.

(** A loop of [n] key presses sends only those keys, at most [n] of them
    and all [n] when it returns; it ends normally or on an exception of
    Selenium. *)
Lemma key_loop_log (k : key) (h : WebElement) (n : nat) :
  forall st,
    slider_handle (self st) = Some h ->
    exists m,
      (m <= n)%nat
      /\ log (snd (for_range n (key_press k) st))
         = log st ++ repeat (send_keys h [k]) m
      /\ self (snd (for_range n (key_press k) st)) = self st
      /\ ((fst (for_range n (key_press k) st) = Ok tt /\ m = n)
          \/ exists e, fst (for_range n (key_press k) st) = Err (SeleniumException e)).
Proof.
  induction n as [|n IH]; intros st Hh.
  - exists 0%nat. cbn. rewrite app_nil_r. intuition.
  - rewrite (key_loop_step k h n st Hh). cbv zeta.
    destruct (fst (respond (send_keys h [k]) (browser st))) as [e|_].
    + exists 1%nat. cbn [fst snd log self repeat].
      split; [lia|]. split; [reflexivity|]. split; [reflexivity|].
      right. now exists e.
    + match goal with |- context [for_range n _ ?st'] =>
        destruct (IH st' Hh) as (m & Lm & Lg & Sf & Res) end.
      exists (S m). cbn [log self] in Lg, Sf.
      rewrite Lg, Sf, <- app_assoc. cbn [repeat app].
      split; [lia|]. split; [reflexivity|]. split; [reflexivity|].
      destruct Res as [[R ->]|[e R]]; [left | right; exists e]; auto.
Qed.

Lemma key_loop_accepted (k : key) (h : WebElement) (n : nat) :
  (forall w', fst (respond (send_keys h [k]) w') = inr tt) ->
  forall st,
    slider_handle (self st) = Some h ->
    fst (for_range n (key_press k) st) = Ok tt.
Proof.
  intro Acc. induction n as [|n IH]; intros st Hh; [reflexivity|].
  rewrite (key_loop_step k h n st Hh), Acc. cbv zeta.
  now apply IH.
Qed.

(** C9.  Once the value has been read as [v] and the rail scrolled into
    view: when [v] differs from the target, the rest of
    [move_slider_to_target] is the key presses alone (nothing is read again,
    no [AssertionError] can come out, and it returns normally as soon as the
    browser accepts the keys); when [v] is the target, the value is read
    again and the method returns or raises [AssertionError] on that
    comparison. *)
Theorem fine_phase_asserts_only_at_zero
        (c : Calc) (w w1 w2 : W) (lg : list command) (h : WebElement)
        (s : string) (v : Z) :
  slider_handle c = Some h ->
  respond (get_attribute h "aria-valuenow") w = (inr (Some s), w1) ->
  int_of_str s = Ok v ->
  respond (execute_script scroll_script (slider_track c)) w1 = (inr tt, w2) ->
  let r := fine_phase (State c w lg) in
  let seen := lg ++ [get_attribute h "aria-valuenow";
                     execute_script scroll_script (slider_track c)] in
  let k := if v <? target_value c then ARROW_RIGHT else ARROW_LEFT in
  let n := Z.to_nat (Z.abs (target_value c - v)) in
  (v <> target_value c ->
     (exists m, (m <= n)%nat
                /\ log (snd r) = seen ++ repeat (send_keys h [k]) m
                /\ (fst r = Ok tt -> m = n))
     /\ (forall msg, fst r <> Err (AssertionError msg))
     /\ ((forall w', fst (respond (send_keys h [k]) w') = inr tt) ->
         fst r = Ok tt))
  /\ (v = target_value c ->
      forall now w3,
        respond (get_attribute h "aria-valuenow") w2 = (inr now, w3) ->
        r = (if equals_str now (str_of_int (target_value c)) then Ok tt
             else Err (AssertionError
                         [Lit "Slider value mismatch: "; Str s;
                          Lit " != "; Num (PInt (target_value c))]),
             State c w3 (seen ++ [get_attribute h "aria-valuenow"]))).
Proof.
  intros Hh Hr Hv Hs r seen k n. subst r.
  rewrite (fine_phase_after_reading c w w1 w2 lg h s v Hh Hr Hv Hs).
  fold seen. split.
  - intro Hne.
    assert (E : (if 0 <? target_value c - v then
                   for_range (Z.to_nat (target_value c - v))
                             (key_press ARROW_RIGHT)
                 else if target_value c - v <? 0 then
                   for_range (Z.to_nat (Z.abs (target_value c - v)))
                             (key_press ARROW_LEFT)
                 else recheck (Some s))
                = for_range n (key_press k)).
    { subst n k.
      destruct (Z.ltb_spec 0 (target_value c - v)) as [P|P].
      - destruct (Z.ltb_spec v (target_value c)); [|lia].
        now rewrite Z.abs_eq by lia.
      - destruct (Z.ltb_spec (target_value c - v) 0); [|lia].
        destruct (Z.ltb_spec v (target_value c)); [lia|reflexivity]. }
    rewrite E. clear E.
    destruct (key_loop_log k h n (State c w2 seen) Hh)
      as (m & Lm & Lg & _ & Res).
    cbn [log] in Lg. split; [|split].
    + exists m. split; [exact Lm|]. split; [exact Lg|].
      destruct Res as [[_ ->]|[e R]]; [reflexivity | rewrite R; discriminate].
    + intros msg. destruct Res as [[R _]|[e R]]; rewrite R; discriminate.
    + intro Acc. now apply (key_loop_accepted k h n Acc).
  - intros -> now w3 Hn.
    rewrite Z.sub_diag. cbn [Z.ltb Z.compare].
    unfold recheck.
    rewrite (element_of_some _ h) by exact Hh.
    rewrite bind_call. cbn [browser self log]. rewrite Hn.
    rewrite bind_read. cbn [self shown].
    now destruct (equals_str now _).
Qed.

(** ** Convergence on a slider *)

Section OnSlider.
Variable Inv : W -> Prop.
Variable h : WebElement.
Variable now : W -> Z.
Variables lo hi : Z.
Hypothesis widget : slider Inv h now lo hi.

Lemma settled_refl (st : state Calc W) : settled Inv st st.
Proof. now split. Qed.

Lemma settled_trans (a b c : state Calc W) :
  settled Inv a b -> settled Inv b c -> settled Inv a c.
Proof. unfold settled. intros [E1 I1] [E2 I2]. split; [congruence|auto]. Qed.

Lemma settled_call (c : command) (st : state Calc W) :
  settled Inv st (snd (call c st)).
Proof.
  unfold call. pose proof (slider_stays _ _ _ _ _ widget c (browser st)) as K.
  destruct (respond c (browser st)) as [r w']. now split.
Qed.

Lemma coarse_phase_settled : stable (settled Inv) coarse_phase.
Proof.
  unfold coarse_phase, element_of.
  stable_steps settled_refl settled_trans
    ltac:(idtac;
          match goal with
          | |- settled _ ?st (snd (call ?c ?st)) => exact (settled_call c st)
          end).
Qed.

Lemma key_loop_right (n : nat) :
  forall st,
    slider_handle (self st) = Some h ->
    Inv (browser st) ->
    now (browser st) + Z.of_nat n <= hi ->
    exists st',
      for_range n (key_press ARROW_RIGHT) st = (Ok tt, st')
      /\ now (browser st') = now (browser st) + Z.of_nat n.
Proof.
  induction n as [|n IH]; intros st Hh Hi Hn.
  - exists st. split; [reflexivity | lia].
  - rewrite (key_loop_step ARROW_RIGHT h n st Hh). cbv zeta.
    destruct (slider_right _ _ _ _ _ widget (browser st) Hi ltac:(lia))
      as (w' & Rw & Nw).
    pose proof (slider_stays _ _ _ _ _ widget
                  (send_keys h [ARROW_RIGHT]) (browser st) Hi) as Hi'.
    rewrite Rw in *. cbn [fst snd] in *.
    match goal with
    | |- context [for_range n _ ?s1] =>
        destruct (IH s1) as (st' & E & N);
          [exact Hh | exact Hi' | cbn [browser]; lia |]
    end.
    exists st'. split; [exact E|]. cbn [browser] in N. lia.
Qed.

Lemma key_loop_left (n : nat) :
  forall st,
    slider_handle (self st) = Some h ->
    Inv (browser st) ->
    lo <= now (browser st) - Z.of_nat n ->
    exists st',
      for_range n (key_press ARROW_LEFT) st = (Ok tt, st')
      /\ now (browser st') = now (browser st) - Z.of_nat n.
Proof.
  induction n as [|n IH]; intros st Hh Hi Hn.
  - exists st. split; [reflexivity | lia].
  - rewrite (key_loop_step ARROW_LEFT h n st Hh). cbv zeta.
    destruct (slider_left _ _ _ _ _ widget (browser st) Hi ltac:(lia))
      as (w' & Rw & Nw).
    pose proof (slider_stays _ _ _ _ _ widget
                  (send_keys h [ARROW_LEFT]) (browser st) Hi) as Hi'.
    rewrite Rw in *. cbn [fst snd] in *.
    match goal with
    | |- context [for_range n _ ?s1] =>
        destruct (IH s1) as (st' & E & N);
          [exact Hh | exact Hi' | cbn [browser]; lia |]
    end.
    exists st'. split; [exact E|]. cbn [browser] in N. lia.
Qed.

Lemma fine_phase_reaches_target (st : state Calc W) :
  slider_handle (self st) = Some h ->
  Inv (browser st) ->
  lo <= target_value (self st) <= hi ->
  exists st',
    fine_phase st = (Ok tt, st')
    /\ now (browser st') = target_value (self st).
Proof.
  destruct st as [c w lg]. cbn [self browser]. intros Hh Hi Ht.
  destruct (slider_scroll _ _ _ _ _ widget w (slider_track c) Hi)
    as (w2 & Sw & Nw).
  pose proof (slider_stays _ _ _ _ _ widget
                (execute_script scroll_script (slider_track c)) w Hi)
    as Hi2.
  rewrite Sw in Hi2. cbn [snd] in Hi2.
  rewrite (fine_phase_after_reading c w w w2 lg h
             (str_of_int (now w)) (now w) Hh
             (slider_read _ _ _ _ _ widget w Hi)
             (int_of_str_of_int (now w)) Sw).
  destruct (Z.ltb_spec 0 (target_value c - now w)) as [P|P].
  - match goal with
    | |- context [for_range ?n _ ?s1] =>
        destruct (key_loop_right n s1) as (st' & E & N);
          [exact Hh | exact Hi2 | cbn [browser]; lia |]
    end.
    exists st'. split; [exact E|]. cbn [browser] in N. lia.
  - destruct (Z.ltb_spec (target_value c - now w) 0) as [Q|Q].
    + match goal with
      | |- context [for_range ?n _ ?s1] =>
          destruct (key_loop_left n s1) as (st' & E & N);
            [exact Hh | exact Hi2 | cbn [browser]; lia |]
      end.
      exists st'. split; [exact E|]. cbn [browser] in N. lia.
    + assert (Eq : now w2 = target_value c) by lia.
      exists (State c w2
                    ((lg ++ [get_attribute h "aria-valuenow";
                             execute_script scroll_script (slider_track c)])
                       ++ [get_attribute h "aria-valuenow"])).
      split; [|exact Eq].
      unfold recheck.
      rewrite (element_of_some _ h) by exact Hh.
      rewrite bind_call. cbn [browser self log].
      rewrite (slider_read _ _ _ _ _ widget w2 Hi2).
      rewrite bind_read. cbn [self equals_str].
      now rewrite Eq, String.eqb_refl.
Qed.
End OnSlider.

(** C2, amended.  Take a slider whose arrow keys move its value by one
    inside its range and whose [aria-valuenow] is the decimal text of the
    value.  Whenever the target lies in that range and in
    [min_value .. max_value], and the coarse phase completes (which needs
    [min_value < max_value]: the fraction divides by their difference),
    [move_slider_to_target] returns normally and the slider then reports
    exactly the target, wherever the drag has left the handle. *)
Theorem move_slider_to_target_reaches_target
        (Inv : W -> Prop) (h : WebElement) (now : W -> Z) (lo hi : Z)
        (c : Calc) (w : W) (lg : list command) (st1 : state Calc W) :
  slider Inv h now lo hi ->
  slider_handle c = Some h ->
  Inv w ->
  lo <= target_value c <= hi ->
  min_value c <= target_value c <= max_value c ->
  coarse_phase (State c w lg) = (Ok tt, st1) ->
  min_value c < max_value c
  /\ exists st2,
      move_slider_to_target (State c w lg) = (Ok tt, st2)
      /\ now (browser st2) = target_value c.
Proof.
  intros widget Hh Hi Hr Ht Hc. split.
  - destruct (Z.eq_dec (min_value c) (max_value c)) as [E|N]; [|lia].
    rewrite (coarse_phase_zero_range c w lg E) in Hc. discriminate Hc.
  - pose proof (coarse_phase_settled Inv h now _ _ widget (State c w lg))
      as [Sf Si].
    rewrite Hc in Sf, Si. cbn [snd self browser] in Sf, Si.
    destruct (fine_phase_reaches_target Inv h now _ _ widget st1)
      as (st2 & E & N).
    + now rewrite Sf.
    + auto.
    + now rewrite Sf.
    + exists st2. rewrite Sf in N. split; [|exact N].
      unfold move_slider_to_target, bind. now rewrite Hc.
Qed.
End Slider.

Section Reimbursement.
Context {W : Type} `{Browser W}.

(** ** Sums of floats *)

Lemma sum_from_floats (l : list float) (f : float) :
  exists g, sum_from (PFloat f) (map PFloat l) = Ok (PFloat g).
Proof.
  revert f. induction l as [|a l IH]; intro f; [now exists f|].
  cbn [map sum_from add lift_float to_float rbind Ok]. apply IH.
Qed.

Lemma sum_floats (l : list float) :
  l <> [] -> exists g, sum (map PFloat l) = Ok (PFloat g).
Proof.
  destruct l as [|a l]; [congruence|]. intros _.
  unfold sum. cbn [map sum_from]. apply sum_from_floats.
Qed.


(** ** [checkbox_code] *)

Lemma select_and_scrape_self (locator : string) :
  stable (same (fun c : Calc => c)) (select_and_scrape locator).
Proof.
  unfold select_and_scrape, wait_clickable, wait_present.
  frame (fun c : Calc => c).
Qed.

(** What [record_unless_one_time] does, by the answer to the probe. *)
Lemma record_unless_one_time_result
      (locator reimbursement : string) (st : state Calc W) :
  let probe := until_present (wait (self st))
                             ((locator ++ parent) ++ recuring_text) in
  let seen := State (self st) (snd (respond probe (browser st)))
                    (log st ++ [probe]) in
  record_unless_one_time locator reimbursement st
  = match fst (respond probe (browser st)) with
    | inr _ => (Ok tt, seen)
    | inl _ =>
        match parse_reimbursement reimbursement with
        | inr v =>
            (Ok tt,
             State (append_CPT_code_value v (self st)) (browser seen)
                   (log seen))
        | inl e => (Err e, seen)
        end
    end.
Proof.
  unfold record_unless_one_time, try_except. cbv zeta.
  rewrite bind_wait_present. cbv zeta.
  destruct (respond _ (browser st)) as [[e|el] w']; cbn [fst snd];
    [|reflexivity].
  rewrite bind_lift.
  now destruct (parse_reimbursement reimbursement).
Qed.

Lemma append_changes {A} (l : list A) (a : A) : l ++ [a] <> l.
Proof.
  intro E. apply (f_equal (@List.length A)) in E.
  rewrite length_app in E. cbn in E. lia.
Qed.

(** C4.  For a code whose checkbox was selected and whose amount was read
    as [text], a currency text of value [v]: [checkbox_code] appends [v]
    to the collected values exactly when the probe for the "One Time"
    marker raises (the wait times out, or any other exception), and leaves
    the collection as it was when the marker is found; it returns normally
    either way. *)
Theorem checkbox_code_records_iff_probe_fails
        (c : Calc) (w : W) (lg : list command) (locator text : string)
        (st1 : state Calc W) (v : float) :
  select_and_scrape locator (State c w lg) = (Ok text, st1) ->
  parse_reimbursement text = Ok v ->
  let probe := fst (respond (until_present (wait c)
                               ((locator ++ parent) ++ recuring_text))
                            (browser st1)) in
  let r := checkbox_code locator (State c w lg) in
  (list_of_CPT_code_values (self (snd r)) = list_of_CPT_code_values c ++ [v]
   <-> exists e, probe = inl e)
  /\ ((exists el, probe = inr el) ->
      list_of_CPT_code_values (self (snd r)) = list_of_CPT_code_values c)
  /\ fst r = Ok tt.
Proof.
  intros Hs Hv probe r.
  pose proof (select_and_scrape_self locator (State c w lg)) as Sf.
  rewrite Hs in Sf. unfold same in Sf. cbn [snd self] in Sf.
  assert (R : r = record_unless_one_time locator text st1).
  { subst r. unfold checkbox_code, bind. now rewrite Hs. }
  rewrite R, record_unless_one_time_result. cbv zeta.
  rewrite Sf, Hv. fold probe.
  destruct probe as [e|el]; cbn [fst snd self list_of_CPT_code_values
                                  append_CPT_code_value].
  - split; [split; [now exists e | reflexivity]|].
    split; [now intros [el [=]] | reflexivity].
  - split; [split; [intro E; now apply eq_sym, append_changes in E
                   | now intros [e [=]]]|].
    split; [reflexivity | reflexivity].
Qed.

(** ** [count_of_patients] and the validation *)

Lemma count_of_patients_result
      (c : Calc) (w w1 w2 : W) (lg : list command) (e : WebElement)
      (txt : string) :
  respond (until_present (wait c) total_xpath) w = (inr e, w1) ->
  respond (text e) w1 = (inr txt, w2) ->
  let seen := lg ++ [until_present (wait c) total_xpath; text e] in
  count_of_patients (State c w lg)
  = match parse_total txt with
    | inl er => (Err er, State c w2 seen)
    | inr a => tally (State (set_amount a c) w2 seen)
    end.
Proof.
  intros Hw Ht. cbv zeta. unfold count_of_patients.
  rewrite bind_wait_present. cbv zeta. cbn [self browser log]. rewrite Hw.
  rewrite bind_call. cbn [self browser log]. rewrite Ht.
  rewrite bind_lift, <- app_assoc.
  now destruct (parse_total txt).
Qed.

Lemma tally_result
      (st : state Calc W) (w3 w4 : W) (vf : WebElement) (v : option string) :
  respond (find_element field_xpath) (browser st) = (inr vf, w3) ->
  respond (get_attribute vf "value") w3 = (inr v, w4) ->
  let seen := log st ++ [find_element field_xpath; get_attribute vf "value"] in
  tally st
  = match rbind (sum (map PFloat (list_of_CPT_code_values (self st))))
                (fun s => rbind (int v) (fun p => mul s (PInt p))) with
    | inl er => (Err er, State (self st) w4 seen)
    | inr tot =>
        (Ok tt,
         State (set_total_Value_of_reimbursement tot (self st)) w4 seen)
    end.
Proof.
  intros Hf Hv. cbv zeta. unfold tally.
  rewrite bind_call. rewrite Hf.
  rewrite bind_call. cbn [self browser log]. rewrite Hv.
  rewrite bind_read, bind_lift, <- app_assoc. cbn [self].
  destruct (sum _) as [er|s]; [reflexivity|]. cbn [rbind].
  rewrite bind_lift. destruct (int v) as [er|p]; [reflexivity|].
  cbn [rbind]. rewrite bind_lift.
  now destruct (mul s (PInt p)).
Qed.

Lemma validation_result (st : state Calc W) :
  validation_of_total_recurring_reimbursement_per_month st
  = (if eqb (total_Value_of_reimbursement (self st))
            (PInt (amount (self st)))
     then Ok tt
     else Err (AssertionError
                 [Lit "Mismatch of total recurring reimbursement per month: ";
                  Num (total_Value_of_reimbursement (self st));
                  Lit " != "; Num (PInt (amount (self st)))]),
     st).
Proof.
  unfold validation_of_total_recurring_reimbursement_per_month.
  rewrite !bind_read. now destruct (eqb _ _).
Qed.

(** C1.  With the aggregate shown parsed as [a] and the patient count as
    [p], [count_of_patients] stores as total [sum(values) * p] (the sum of
    the collected amounts, times [p]); the validation then returns normally
    exactly when that total [==] [a], and otherwise raises the
    [AssertionError] whose message carries both values. *)
Theorem total_is_sum_times_patients_and_checked
        (c : Calc) (w w1 w2 w3 w4 : W) (lg : list command)
        (e vf : WebElement) (txt ps : string) (a p : Z) (tot : number) :
  respond (until_present (wait c) total_xpath) w = (inr e, w1) ->
  respond (text e) w1 = (inr txt, w2) ->
  parse_total txt = Ok a ->
  respond (find_element field_xpath) w2 = (inr vf, w3) ->
  respond (get_attribute vf "value") w3 = (inr (Some ps), w4) ->
  int_of_str ps = Ok p ->
  rbind (sum (map PFloat (list_of_CPT_code_values c)))
        (fun s => mul s (PInt p)) = Ok tot ->
  exists st',
    count_of_patients (State c w lg) = (Ok tt, st')
    /\ total_Value_of_reimbursement (self st') = tot
    /\ amount (self st') = a
    /\ let r := fst (validation_of_total_recurring_reimbursement_per_month
                       st') in
       (r = Ok tt <-> eqb tot (PInt a) = true)
       /\ (eqb tot (PInt a) = false ->
           r = Err (AssertionError
                      [Lit "Mismatch of total recurring reimbursement per month: ";
                       Num tot; Lit " != "; Num (PInt a)])).
Proof.
  intros Hw Ht Ha Hf Hv Hp Htot.
  rewrite (count_of_patients_result c w w1 w2 lg e txt Hw Ht), Ha.
  unfold Ok at 1. cbv beta iota zeta.
  match goal with
  | |- context [tally ?st] =>
      rewrite (tally_result st w3 w4 vf (Some ps) Hf Hv)
  end.
  cbn [self int].
  assert (E : rbind (sum (map PFloat (list_of_CPT_code_values
                                        (set_amount a c))))
                    (fun s => rbind (int_of_str ps)
                                    (fun p => mul s (PInt p))) = Ok tot).
  { rewrite Hp. exact Htot. }
  cbv zeta. rewrite E. unfold Ok at 1. cbv beta iota.
  eexists. split; [reflexivity|].
  cbn [self total_Value_of_reimbursement amount
       set_total_Value_of_reimbursement set_amount].
  split; [reflexivity|]. split; [reflexivity|].
  rewrite validation_result.
  cbn [fst self total_Value_of_reimbursement amount
       set_total_Value_of_reimbursement set_amount].
  destruct (eqb tot (PInt a)); split;
    (reflexivity || discriminate || (split; (reflexivity || discriminate))).
Qed.




End Reimbursement.

(* ===================================================================== *)
(** * The statements on the page *)
(* ===================================================================== *)

Section OnThePage.

Lemma nudge_keeps (lo hi : Z) (ks : list key) :
  forall p, unit_slider lo hi p -> unit_slider lo hi (fold_left nudge ks p).
Proof.
  induction ks as [|k ks IH]; intros p U; [exact U|].
  cbn [fold_left]. apply IH. destruct k; exact U.
Qed.

Lemma page_slider (lo hi : Z) :
  slider (unit_slider lo hi) (Element handle_xpath) slider_now lo hi.
Proof.
  constructor.
  - intros c p U.
    destruct c as [url| |t xp|t xp|xp|e|e ks|e name|e|e|script a|chain|];
      cbn [respond page_browser answer snd]; try exact U.
    + destruct (String.eqb (ref e) field_xpath); [exact U|].
      destruct (String.eqb (ref e) handle_xpath); [|exact U].
      now apply nudge_keeps.
    + destruct (_ && _); [exact U|]. destruct (_ && _); exact U.
    + destruct (String.eqb (ref e) track_xpath); [exact U|].
      destruct (String.eqb (ref e) handle_xpath); exact U.
    + destruct chain as [|[e| |] [|[| dx dy|] [|[| |] [|? ?]]]]; try exact U.
      destruct (String.eqb (ref e) handle_xpath); exact U.
  - intros p _. reflexivity.
  - intros p (S1 & _ & S3) Lt. eexists. split; [reflexivity|].
    cbn. rewrite S1, S3. lia.
  - intros p (S1 & S2 & _) Lt. eexists. split; [reflexivity|].
    cbn. rewrite S1, S2. lia.
  - intros p a _. eexists. split; reflexivity.
Qed.

Lemma page_text_field :
  text_field (fun _ : page => True) (Element field_xpath) field_value.
Proof.
  constructor.
  - intros p _. reflexivity.
  - intros p ks _. eexists. split; [reflexivity|]. now split.
Qed.

(** ** The scenarios of the specification *)

Example scenario_slider_and_textbox :
  let r := run "https://www.fitpeo.com/" "560" (State init fitpeo []) in
  fst r = Ok tt
  /\ slider_now (browser (snd r)) = 820
  /\ field_value (browser (snd r)) = "560".
Proof. vm_compute. auto. Qed.

Example scenario_reimbursement :
  let r := execute "https://www.fitpeo.com/" (State init fitpeo []) in
  fst r = Ok tt
  /\ total_Value_of_reimbursement (self (snd r))
     = PFloat (S754_finite false 7696581394432000 (-42))
  /\ amount (self (snd r)) = 1750
  /\ list_of_CPT_code_values (self (snd r))
     = list_of_CPT_code_values collected.
Proof. vm_compute. auto. Qed.

(** With two units per key the loop overshoots, and the method still
    returns normally. *)
Example fine_phase_does_not_verify :
  let r := fine_phase (State ready two_step []) in
  fst r = Ok tt /\ slider_now (browser (snd r)) = 897.
Proof. vm_compute. auto. Qed.

(** ** C1 *)

Lemma total_is_sum_times_patients_witness :
  exists st',
    count_of_patients (State collected fitpeo []) = (Ok tt, st')
    /\ total_Value_of_reimbursement (self st')
       = PFloat (S754_finite false 7696581394432000 (-42))
    /\ amount (self st') = 1750
    /\ let r := fst (validation_of_total_recurring_reimbursement_per_month
                       st') in
       (r = Ok tt
        <-> eqb (PFloat (S754_finite false 7696581394432000 (-42)))
                (PInt 1750) = true)
       /\ (eqb (PFloat (S754_finite false 7696581394432000 (-42)))
               (PInt 1750) = false ->
           r = Err (AssertionError
                      [Lit "Mismatch of total recurring reimbursement per month: ";
                       Num (PFloat (S754_finite false 7696581394432000 (-42)));
                       Lit " != "; Num (PInt 1750)])).
Proof.
  apply (total_is_sum_times_patients_and_checked
           collected fitpeo fitpeo fitpeo fitpeo fitpeo []
           (Element total_xpath) (Element field_xpath)
           "$1,750" "50" 1750 50);
    vm_compute; reflexivity.
Defined.

(** ** C2 *)

Lemma move_slider_to_target_witness :
  min_value ready < max_value ready
  /\ exists st2,
      move_slider_to_target (State ready fitpeo []) = (Ok tt, st2)
      /\ slider_now (browser st2) = target_value ready.
Proof.
  apply (move_slider_to_target_reaches_target
           (unit_slider 0 2000) (Element handle_xpath) slider_now 0 2000
           ready fitpeo [] (snd (coarse_phase (State ready fitpeo [])))).
  - exact (page_slider 0 2000).
  - reflexivity.
  - vm_compute. auto.
  - vm_compute. split; discriminate.
  - vm_compute. split; discriminate.
  - vm_compute. reflexivity.
Defined.

(** With [min_value = max_value] (and the target between them) the method
    raises [ZeroDivisionError] before any command is sent, and the slider
    stays where it was, away from the target. *)
Lemma move_slider_to_target_zero_range :
  min_value degenerate <= target_value degenerate <= max_value degenerate
  /\ move_slider_to_target (State degenerate fitpeo [])
     = (Err ZeroDivisionError, State degenerate fitpeo [])
  /\ slider_now fitpeo <> target_value degenerate.
Proof.
  split; [vm_compute; split; discriminate|].
  split; [vm_compute; reflexivity | vm_compute; discriminate].
Qed.

(** ** C3 *)

Lemma coarse_phase_pixel_offset_witness :
  coarse_phase (State ready fitpeo [])
  = call (perform [click_and_hold (Element handle_xpath);
                   move_by_offset 81 0; release])
         (State ready fitpeo
                ([] ++ [rect (Element track_xpath);
                        rect (Element handle_xpath)]))
  /\ Spec.targetFraction (min_value init) (max_value init)
                         (target_value init)
     = rbind (float_of_str "0.41") (fun f => Ok (PFloat f)).
Proof.
  exact (coarse_phase_pixel_offset
           ready fitpeo fitpeo fitpeo [] (Element track_xpath)
           (Element handle_xpath) (track_rect fitpeo) (handle_rect fitpeo)
           eq_refl eq_refl eq_refl eq_refl).
Defined.

(** ** C4 *)

Lemma checkbox_code_witness :
  let st1 := snd (select_and_scrape first_locator (State init fitpeo [])) in
  let probe := fst (respond (until_present (wait init)
                               ((first_locator ++ parent) ++ recuring_text))
                            (browser st1)) in
  let r := checkbox_code first_locator (State init fitpeo []) in
  (list_of_CPT_code_values (self (snd r))
   = list_of_CPT_code_values init
     ++ [S754_finite false 5629499534213120 (-49)]
   <-> exists e, probe = inl e)
  /\ ((exists el, probe = inr el) ->
      list_of_CPT_code_values (self (snd r)) = list_of_CPT_code_values init)
  /\ fst r = Ok tt.
Proof.
  apply (checkbox_code_records_iff_probe_fails
           init fitpeo [] first_locator "$10");
    vm_compute; reflexivity.
Defined.

(** On the page whose first code shows ["n/a"] for its amount and has no
    "One Time" marker, the amount is read, the probe times out, and yet
    nothing is recorded: [float()] raises inside the [except] block and
    [checkbox_code] ends on [ValueError]. *)
Lemma checkbox_code_probe_fails_nothing_recorded :
  let s := select_and_scrape first_locator (State init unpriced []) in
  let probe := fst (respond (until_present (wait init)
                               ((first_locator ++ parent) ++ recuring_text))
                            (browser (snd s))) in
  let r := checkbox_code first_locator (State init unpriced []) in
  fst s = Ok "n/a"
  /\ probe = inl TimeoutException
  /\ list_of_CPT_code_values (self (snd r)) = list_of_CPT_code_values init
  /\ (forall v, list_of_CPT_code_values (self (snd r))
                <> list_of_CPT_code_values init ++ [v])
  /\ fst r = Err ValueError.
Proof.
  cbv zeta. repeat split; try (vm_compute; reflexivity).
  intro v. vm_compute. discriminate.
Qed.

(** ** C5 *)

(** An empty text has no value, and the text of the specification's own
    example is refused where the aggregate is parsed. *)
Lemma currency_parsing_not_total :
  parse_reimbursement "" = Err ValueError
  /\ parse_total "$1,234.00" = Err ValueError.
Proof. split; vm_compute; reflexivity. Qed.

(** ** C6 *)

Lemma check_value_in_textbox_witness :
  let r := fst (check_value_in_textbox "560" (State ready reading_560_0 [])) in
  (r = Ok tt <-> Some "560.0" = Some "560")
  /\ (Some "560.0" <> Some "560" ->
      r = Err (AssertionError
                 [Lit "Expected value "; Str "560"; Lit " but found ";
                  shown (Some "560.0"); Lit "."]))
  /\ ("560" = "560" -> Some "560.0" = Some "560.0" \/ Some "560.0" = Some "0560" ->
      is_ok r = false).
Proof.
  apply (check_value_in_textbox_exact
           ready reading_560_0 [] (Element field_xpath) (Some "560.0") "560");
    reflexivity.
Defined.

(** ** C7 *)

Lemma clear_and_set_value_witness :
  exists w',
    clear_and_set_value "560" (State ready fitpeo [])
    = (Ok tt,
       State ready w'
             ([] ++ [get_attribute (Element field_xpath) "value";
                     send_keys (Element field_xpath)
                               (repeat BACKSPACE
                                       (String.length (field_value fitpeo)));
                     send_keys (Element field_xpath) (typed "560")]))
    /\ field_value w' = "560"
    /\ forall lg', fst (check_value_in_textbox "560" (State ready w' lg'))
                   = Ok tt.
Proof.
  apply (clear_and_set_value_then_check
           (fun _ : page => True) (Element field_xpath) field_value
           ready fitpeo [] "560");
    [exact page_text_field | reflexivity | exact I].
Defined.

(** ** C9 *)

Lemma fine_phase_witness :
  let r := fine_phase (State ready dragged []) in
  let seen := [] ++ [get_attribute (Element handle_xpath) "aria-valuenow";
                     execute_script scroll_script (slider_track ready)] in
  let k := if 743 <? target_value ready then ARROW_RIGHT else ARROW_LEFT in
  let n := Z.to_nat (Z.abs (target_value ready - 743)) in
  (743 <> target_value ready ->
     (exists m, (m <= n)%nat
                /\ log (snd r)
                   = seen ++ repeat (send_keys (Element handle_xpath) [k]) m
                /\ (fst r = Ok tt -> m = n))
     /\ (forall msg, fst r <> Err (AssertionError msg))
     /\ ((forall w', fst (respond (send_keys (Element handle_xpath) [k]) w')
                     = inr tt) ->
         fst r = Ok tt))
  /\ (743 = target_value ready ->
      forall now w3,
        respond (get_attribute (Element handle_xpath) "aria-valuenow") dragged
        = (inr now, w3) ->
        r = (if equals_str now (str_of_int (target_value ready)) then Ok tt
             else Err (AssertionError
                         [Lit "Slider value mismatch: "; Str "743";
                          Lit " != "; Num (PInt (target_value ready))]),
             State ready w3
                   (seen ++ [get_attribute (Element handle_xpath)
                                           "aria-valuenow"]))).
Proof.
  apply (fine_phase_asserts_only_at_zero
           ready dragged dragged dragged [] (Element handle_xpath)
           "743" 743);
    vm_compute; reflexivity.
Defined.

(** ** C10 *)

End OnThePage.

(* ===================================================================== *)
(** * Further properties of the methods *)
(* ===================================================================== *)

(** ** What is sent to the browser *)

Section Logs.
Context {T W : Type} `{Browser W}.
Variable P : command -> Prop.

Lemma sends_refl (st : state T W) : sends P st st.
Proof. exists []. now rewrite app_nil_r. Qed.

Lemma sends_trans (a b c : state T W) :
  sends P a b -> sends P b c -> sends P a c.
Proof.
  intros (l & E & F) (l' & E' & F'). exists (l ++ l').
  split; [now rewrite E', E, app_assoc | now apply Forall_app].
Qed.

Lemma sends_call (c : command) (st : state T W) :
  P c -> sends P st (snd (call c st)).
Proof.
  intro Pc. unfold call. destruct (respond c (browser st)) as [r w'].
  exists [c]. split; [reflexivity | now constructor].
Qed.

Lemma sends_assign (upd : T -> T) : stable (sends P) (assign (W:=W) upd).
Proof.
  intro st. exists []. cbn [assign snd log].
  split; [now rewrite app_nil_r | constructor].
Qed.
End Logs.

(** Splits a method into its commands, each of which is checked against the
    class [cls] it must stay out of. *)
Ltac stays_out cls :=
  cbv zeta;
  match goal with
  | |- @stable ?T0 ?W0 _ _ _ =>
      stable_steps (@sends_refl T0 W0 (fun k => cls k = false))
                   (@sends_trans T0 W0 (fun k => cls k = false))
        ltac:(first
                [ apply sends_assign
                | match goal with
                  | |- sends _ ?st (snd (call ?c ?st)) =>
                      exact (sends_call (fun k => cls k = false) c st eq_refl)
                  end ])
  end.

Section Commands.
Context {W : Type} `{Browser W}.

Ltac open_run :=
  unfold run, open_website, click_revenue_calculator, find_elements,
    move_slider_to_target, coarse_phase, fine_phase, key_press, recheck,
    clear_and_set_value, check_value_in_textbox, wait_clickable,
    wait_present, element_of.

Ltac open_execute :=
  unfold execute, open_website, click_revenue_calculator, checkbox_code,
    select_and_scrape, record_unless_one_time, count_of_patients, tally,
    validation_of_total_recurring_reimbursement_per_month,
    wait_clickable, wait_present, element_of.



(** X1.  Whatever the browser answers, [run] never waits for the presence
    of an element, never reads the text of one and never closes the
    session, and [execute] never types, never drags, never measures an
    element and never closes the session. *)
Theorem scenarios_keep_to_their_commands
        (url tv : string) (c : Calc) (w : W) (lg : list command) :
  (exists l, log (snd (run url tv (State c w lg))) = lg ++ l
             /\ Forall (fun k => scrapes_or_closes k = false) l)
  /\ (exists l, log (snd (execute url (State c w lg))) = lg ++ l
                /\ Forall (fun k => acts_on_slider_or_session k = false) l).
Proof.
  split.
  - assert (S : stable (sends (fun k => scrapes_or_closes k = false))
                       (run (W:=W) url tv))
      by (open_run; stays_out scrapes_or_closes).
    exact (S (State c w lg)).
  - assert (S : stable (sends (fun k => acts_on_slider_or_session k = false))
                       (execute (W:=W) url))
      by (open_execute; stays_out acts_on_slider_or_session).
    exact (S (State c w lg)).
Qed.

End Commands.

(** ** The timeout of the waits *)

Section Timeout.
Context {W : Type} `{Browser W}.

Lemma patient_refl (st : state Calc W) : patient st st.
Proof. split; [reflexivity | apply sends_refl]. Qed.

Lemma patient_trans (a b c : state Calc W) :
  patient a b -> patient b c -> patient a c.
Proof.
  intros [E S] [E' S']. split; [congruence|].
  rewrite E in S'. now apply (sends_trans _ a b c).
Qed.

Lemma patient_call (c : command) (st : state Calc W) :
  (forall t, waits_for t c) -> patient st (snd (call c st)).
Proof.
  intro Wc. split; [|apply sends_call, Wc].
  unfold call. now destruct (respond c (browser st)).
Qed.

Lemma patient_assign (upd : Calc -> Calc) :
  (forall c, wait (upd c) = wait c) -> stable patient (assign (W:=W) upd).
Proof.
  intros E st. split; [apply E|].
  exists []. cbn [assign snd log]. split; [now rewrite app_nil_r | constructor].
Qed.

Lemma patient_wait_clickable (xp : string) :
  stable patient (wait_clickable (W:=W) xp).
Proof.
  intro st. unfold wait_clickable, bind, read, call, Ok.
  destruct (respond _ (browser st)) as [r w']. cbn [snd].
  split; [reflexivity|]. exists [until_clickable (wait (self st)) xp].
  split; [reflexivity | now repeat constructor].
Qed.

Lemma patient_wait_present (xp : string) :
  stable patient (wait_present (W:=W) xp).
Proof.
  intro st. unfold wait_present, bind, read, call, Ok.
  destruct (respond _ (browser st)) as [r w']. cbn [snd].
  split; [reflexivity|]. exists [until_present (wait (self st)) xp].
  split; [reflexivity | now repeat constructor].
Qed.

Ltac waits :=
  cbv zeta;
  repeat first
    [ apply patient_wait_clickable
    | apply patient_wait_present
    | apply patient_assign; reflexivity
    | match goal with
      | |- patient ?st (snd (call ?c ?st)) =>
          exact (patient_call c st (fun _ => I))
      end
    | apply (stable_bind _ patient_trans)
    | apply (stable_try _ patient_trans)
    | apply (stable_for_range _ patient_refl patient_trans)
    | apply (stable_for_each _ patient_refl patient_trans)
    | apply stable_if
    | apply (stable_ret _ patient_refl)
    | apply (stable_raise _ patient_refl)
    | apply (stable_lift _ patient_refl)
    | apply (stable_read _ patient_refl)
    | match goal with
      | |- stable _ (match ?o with _ => _ end) => destruct o
      end
    | intro ].

Lemma run_patient (url tv : string) : stable patient (run (W:=W) url tv).
Proof.
  unfold run, open_website, click_revenue_calculator, find_elements,
    move_slider_to_target, coarse_phase, fine_phase, key_press, recheck,
    clear_and_set_value, check_value_in_textbox, element_of.
  waits.
Qed.

Lemma execute_patient (url : string) : stable patient (execute (W:=W) url).
Proof.
  unfold execute, open_website, click_revenue_calculator, checkbox_code,
    select_and_scrape, record_unless_one_time, count_of_patients, tally,
    validation_of_total_recurring_reimbursement_per_month, element_of.
  waits.
Qed.

(** X3.  No method changes the timeout of the instance, and every wait that
    [run] or [execute] sends carries that timeout: the one of [__init__]
    holds for the whole session. *)
Theorem every_wait_uses_the_timeout
        (url tv : string) (c : Calc) (w : W) (lg : list command) :
  (wait (self (snd (run url tv (State c w lg)))) = wait c
   /\ exists l, log (snd (run url tv (State c w lg))) = lg ++ l
                /\ Forall (waits_for (wait c)) l)
  /\ (wait (self (snd (execute url (State c w lg)))) = wait c
      /\ exists l, log (snd (execute url (State c w lg))) = lg ++ l
                   /\ Forall (waits_for (wait c)) l).
Proof.
  split.
  - exact (run_patient url tv (State c w lg)).
  - exact (execute_patient url (State c w lg)).
Qed.
End Timeout.

(** ** Elements are located before they are used *)

Section Located.
Context {W : Type} `{Browser W}.

Lemma int_of_str_error (s : string) (e : exn) :
  int_of_str s = Err e -> e = ValueError.
Proof.
  unfold int_of_str. destruct (sign _) as [neg body].
  now destruct (digitpart body) as [[ds [|? ?]]|]; intros [= <-].
Qed.

Lemma to_float_error (a : number) (e : exn) :
  to_float a = Err e -> e = OverflowError.
Proof.
  destruct a as [z|f]; [|discriminate]. unfold to_float, float_of_int.
  now destruct (is_inf _); intros [= <-].
Qed.

Lemma lift_float_error (op : float -> float -> float) (a b : number) (e : exn) :
  lift_float op a b = Err e -> e = OverflowError.
Proof.
  unfold lift_float.
  destruct (to_float a) as [e1|x] eqn:A; cbn [rbind];
    [intros [= <-]; now apply (to_float_error a)|].
  destruct (to_float b) as [e2|y] eqn:B; cbn [rbind];
    [intros [= <-]; now apply (to_float_error b) | discriminate].
Qed.

Lemma add_error (a b : number) (e : exn) : add a b = Err e -> e = OverflowError.
Proof.
  destruct a, b; cbn [add]; try apply lift_float_error. discriminate.
Qed.

Lemma sub_error (a b : number) (e : exn) : sub a b = Err e -> e = OverflowError.
Proof.
  destruct a, b; cbn [sub]; try apply lift_float_error. discriminate.
Qed.

Lemma mul_error (a b : number) (e : exn) : mul a b = Err e -> e = OverflowError.
Proof.
  destruct a, b; cbn [mul]; try apply lift_float_error. discriminate.
Qed.

Lemma truediv_error (a b : number) (e : exn) :
  truediv a b = Err e -> e = OverflowError \/ e = ZeroDivisionError.
Proof.
  assert (G : forall a b,
             rbind (to_float a) (fun x =>
             rbind (to_float b) (fun y =>
               if is_zero y then Err ZeroDivisionError
               else Ok (PFloat (fdiv x y)))) = Err e ->
             e = OverflowError \/ e = ZeroDivisionError).
  { intros a' b'.
    destruct (to_float a') as [e1|x] eqn:A; cbn [rbind];
      [intros [= <-]; left; now apply (to_float_error a')|].
    destruct (to_float b') as [e2|y] eqn:B; cbn [rbind];
      [intros [= <-]; left; now apply (to_float_error b')|].
    destruct (is_zero y); [intros [= <-]; now right | discriminate]. }
  destruct a as [x|x], b as [y|y]; cbn [truediv]; try apply G.
  unfold int_truediv.
  destruct y; [intros [= <-]; now right | |];
    (destruct x; [discriminate | |]);
    (destruct (is_inf _); [intros [= <-]; now left | discriminate]).
Qed.

Lemma ceil_error (a : number) (e : exn) :
  ceil a = Err e -> e = OverflowError \/ e = ValueError.
Proof.
  destruct a as [z|[s|s| |s m x]]; cbn [ceil]; try discriminate.
  - intros [= <-]. now left.
  - intros [= <-]. now right.
  - now destruct x.
Qed.

Lemma int_error (v : option string) (e : exn) :
  RevenueCalculator.int v = Err e -> e = ValueError \/ e = TypeError.
Proof.
  destruct v as [s|]; cbn [RevenueCalculator.int].
  - intro E. left. now apply (int_of_str_error s).
  - intros [= <-]. now right.
Qed.

Lemma len_error (v : option string) (e : exn) :
  len v = Err e -> e = TypeError.
Proof. destruct v; cbn [len]; [discriminate | now intros [= <-]]. Qed.

(** *** The rules of [guarded] *)

Lemma guarded_ret {A} (a : A) : guarded (ret (W:=W) a).
Proof. intros st L. split; [discriminate | exact L]. Qed.

Lemma guarded_raise {A} (e : exn) :
  e <> AttributeError -> guarded (raise (W:=W) (A:=A) e).
Proof. intros N st L. split; [intros [= E]; now apply N | exact L]. Qed.

Lemma guarded_lift {A} (r : result A) :
  r <> Err AttributeError -> guarded (lift (W:=W) r).
Proof. intros N st L. split; [exact N | exact L]. Qed.

Lemma guarded_read {A} (field : Calc -> A) : guarded (read (W:=W) field).
Proof. intros st L. split; [discriminate | exact L]. Qed.

Lemma guarded_call (c : command) : guarded (call c).
Proof.
  intros st L. unfold call.
  destruct (respond c (browser st)) as [[e|a] w']; cbn [fst snd self];
    (split; [discriminate | exact L]).
Qed.

Lemma guarded_bind {A B} (m : M Calc W A) (k : A -> M Calc W B) :
  guarded m -> (forall a, guarded (k a)) -> guarded (bind m k).
Proof.
  intros Hm Hk st L. unfold bind. destruct (Hm st L) as [N L'].
  destruct (m st) as [[e|a] st']; cbn [fst snd] in *.
  - split; [|exact L']. intros [= ->]. now apply N.
  - now apply Hk.
Qed.

Lemma guarded_if {A} (b : bool) (m m' : M Calc W A) :
  guarded m -> guarded m' -> guarded (if b then m else m').
Proof. now destruct b. Qed.

Lemma guarded_for_range (n : nat) (body : M Calc W unit) :
  guarded body -> guarded (for_range n body).
Proof.
  intro Hb. induction n; [apply guarded_ret|].
  apply guarded_bind; [exact Hb | intros _; exact IHn].
Qed.

Lemma guarded_element_of (field : Calc -> option WebElement) :
  (forall c, located c -> field c <> None) ->
  guarded (element_of (W:=W) field).
Proof.
  intros F st L. unfold element_of, bind, read, Ok.
  specialize (F _ L). destruct (field (self st)); [|congruence].
  split; [discriminate | exact L].
Qed.

Ltac guarded_steps :=
  cbv zeta;
  repeat first
    [ apply guarded_element_of; intros ? (? & ? & ?); assumption
    | apply guarded_bind
    | apply guarded_for_range
    | apply guarded_if
    | apply guarded_ret
    | apply guarded_read
    | match goal with
      | |- guarded (call ?c) => exact (guarded_call c)
      end
    | apply guarded_raise; discriminate
    | apply guarded_lift
    | intro ].

Lemma rest_of_run_guarded (tv : string) :
  guarded (move_slider_to_target (W:=W) ;;
           clear_and_set_value tv ;;
           check_value_in_textbox tv)%py.
Proof.
  unfold move_slider_to_target, coarse_phase, fine_phase, key_press, recheck,
    clear_and_set_value, check_value_in_textbox.
  guarded_steps.
  all: match goal with
       | E : truediv _ _ = _ |- _ =>
           destruct (truediv_error _ _ _ E); discriminate
       | E : mul _ _ = _ |- _ => discriminate (mul_error _ _ _ E)
       | E : add _ _ = _ |- _ => discriminate (add_error _ _ _ E)
       | E : sub _ _ = _ |- _ => discriminate (sub_error _ _ _ E)
       | E : ceil _ = _ |- _ => destruct (ceil_error _ _ E); discriminate
       | E : RevenueCalculator.int _ = _ |- _ =>
           destruct (int_error _ _ E); discriminate
       | E : len _ = _ |- _ => discriminate (len_error _ _ E)
       end.
Qed.

Lemma open_website_quiet (url : string) (st : state Calc W) :
  fst (open_website url st) <> Err AttributeError.
Proof.
  unfold open_website. rewrite bind_call.
  destruct (respond (get url) (browser st)) as [[e|[]] w1]; [discriminate|].
  unfold call. cbn [browser].
  now destruct (respond maximize_window w1) as [[e|[]] w2].
Qed.

Lemma click_revenue_calculator_quiet (st : state Calc W) :
  fst (click_revenue_calculator st) <> Err AttributeError.
Proof.
  unfold click_revenue_calculator. rewrite bind_wait_clickable. cbv zeta.
  destruct (respond _ (browser st)) as [[e|el] w1]; [discriminate|].
  unfold call. cbn [browser].
  now destruct (respond (click el) w1) as [[e|[]] w2].
Qed.

Lemma find_elements_locates (st : state Calc W) :
  fst (find_elements st) <> Err AttributeError
  /\ (fst (find_elements st) = Ok tt -> located (self (snd (find_elements st)))).
Proof.
  unfold find_elements, wait_clickable, bind, read, call, assign, Ok.
  cbn [self browser log fst snd].
  destruct (respond _ (browser st)) as [[e1|h] w1];
    cbn [self browser log fst snd]; [split; [discriminate | intros [=]]|].
  destruct (respond (find_element track_xpath) w1) as [[e2|t] w2];
    cbn [self browser log fst snd]; [split; [discriminate | intros [=]]|].
  destruct (respond (find_element field_xpath) w2) as [[e3|f] w3];
    cbn [self browser log fst snd]; [split; [discriminate | intros [=]]|].
  split; [discriminate|]. intros _. repeat split; discriminate.
Qed.

(** X4.  [run] never raises [AttributeError], whatever the browser answers
    and whatever the attributes held before: every element attribute is
    assigned by [find_elements] before a method reads it. *)
Theorem run_never_raises_AttributeError
        (url tv : string) (c : Calc) (w : W) (lg : list command) :
  fst (run url tv (State c w lg)) <> Err AttributeError.
Proof.
  unfold run. unfold bind at 1.
  pose proof (open_website_quiet url (State c w lg)) as Q1.
  destruct (open_website url (State c w lg)) as [[e|[]] st1];
    [exact Q1|]. clear Q1.
  unfold bind at 1.
  pose proof (click_revenue_calculator_quiet st1) as Q2.
  destruct (click_revenue_calculator st1) as [[e|[]] st2]; [exact Q2|].
  clear Q2. unfold bind at 1.
  destruct (find_elements_locates st2) as [Q3 L].
  destruct (find_elements st2) as [[e|[]] st3]; [exact Q3|].
  exact (proj1 (rest_of_run_guarded tv st3 (L eq_refl))).
Qed.

(** X5.  Used before [find_elements], the methods of the slider scenario
    send nothing to the browser and change nothing: with no field located,
    [clear_and_set_value] and [check_value_in_textbox] raise
    [AttributeError]; with no rail located, [move_slider_to_target] raises
    what the fraction raises and [AttributeError] otherwise. *)
Theorem methods_before_find_elements
        (c : Calc) (w : W) (lg : list command) (v : string) :
  (value_field c = None ->
   clear_and_set_value v (State c w lg) = (Err AttributeError, State c w lg)
   /\ check_value_in_textbox v (State c w lg)
      = (Err AttributeError, State c w lg))
  /\ (slider_track c = None ->
      move_slider_to_target (State c w lg)
      = (match Spec.targetFraction (min_value c) (max_value c)
                                   (target_value c) with
         | inl e => Err e
         | inr _ => Err AttributeError
         end, State c w lg)).
Proof.
  split.
  - intro N. unfold clear_and_set_value, check_value_in_textbox, element_of.
    rewrite !bind_bind, !bind_read. cbn [self]. rewrite N. now split.
  - intro N. unfold move_slider_to_target, Spec.targetFraction.
    assert (E : coarse_phase (State c w lg)
                = (match truediv (PInt (target_value c - min_value c))
                                 (PInt (max_value c - min_value c)) with
                   | inl e => Err e
                   | inr _ => Err AttributeError
                   end, State c w lg)).
    { unfold coarse_phase. rewrite !bind_read, bind_lift. cbn [self].
      destruct (truediv _ _) as [e|fraction]; [reflexivity|].
      unfold element_of. rewrite bind_bind, bind_read. cbn [self].
      now rewrite N. }
    unfold bind. rewrite E. now destruct (truediv _ _).
Qed.
End Located.

(** ** The collected values *)

Section Collected.
Context {W : Type} `{Browser W}.

Lemma grows_refl (st : state Calc W) : grows 0 st st.
Proof. exists []. split; [now rewrite app_nil_r | apply Nat.le_refl]. Qed.

Lemma grows_same (st st' : state Calc W) :
  same list_of_CPT_code_values st st' -> grows 0 st st'.
Proof.
  intro E. exists []. unfold same in E.
  split; [now rewrite E, app_nil_r | apply Nat.le_refl].
Qed.

Lemma grows_trans (n m : nat) (a b c : state Calc W) :
  grows n a b -> grows m b c -> grows (n + m) a c.
Proof.
  intros (l & E & L) (l' & E' & L'). exists (l ++ l').
  split; [now rewrite E', E, app_assoc | rewrite length_app; lia].
Qed.

Lemma grows_more (n m : nat) (a b : state Calc W) :
  (n <= m)%nat -> grows n a b -> grows m a b.
Proof. intros Le (l & E & L). exists l. split; [exact E | lia]. Qed.

Lemma open_website_self (url : string) :
  stable (same (fun c : Calc => c)) (open_website (W:=W) url).
Proof. unfold open_website. frame (fun c : Calc => c). Qed.

Lemma click_revenue_calculator_self :
  stable (same (fun c : Calc => c)) (click_revenue_calculator (W:=W)).
Proof.
  unfold click_revenue_calculator, wait_clickable. frame (fun c : Calc => c).
Qed.

Lemma count_and_validation_keep_values :
  stable (same list_of_CPT_code_values)
         (count_of_patients (W:=W) ;;
          validation_of_total_recurring_reimbursement_per_month)%py.
Proof.
  unfold count_of_patients, tally,
    validation_of_total_recurring_reimbursement_per_month, wait_present.
  frame list_of_CPT_code_values.
Qed.

Lemma checkbox_code_grows (locator : string) (st : state Calc W) :
  grows 1 st (snd (checkbox_code locator st)).
Proof.
  unfold checkbox_code, bind.
  pose proof (select_and_scrape_self locator st) as Sf. unfold same in Sf.
  destruct (select_and_scrape locator st) as [[e|reimbursement] st1];
    cbn [fst snd] in *.
  - exists []. split; [now rewrite Sf, app_nil_r | cbn; lia].
  - rewrite record_unless_one_time_result. cbv zeta.
    destruct (fst (respond _ (browser st1))) as [e|el];
      [destruct (parse_reimbursement reimbursement) as [e'|v]|];
      cbn [snd self list_of_CPT_code_values append_CPT_code_value].
    + exists []. split; [now rewrite Sf, app_nil_r | cbn; lia].
    + exists [v]. split; [now rewrite Sf | cbn; lia].
    + exists []. split; [now rewrite Sf, app_nil_r | cbn; lia].
Qed.

Lemma for_each_checkbox_code_grows (xs : list string) :
  forall st : state Calc W,
    grows (List.length xs) st (snd (for_each xs (fun j => checkbox_code j) st)).
Proof.
  induction xs as [|j xs IH]; intro st; [apply grows_refl|].
  cbn [for_each List.length]. unfold bind.
  pose proof (checkbox_code_grows j st) as G.
  destruct (checkbox_code j st) as [[e|[]] st1]; cbn [snd] in *.
  - apply (grows_more 1); [lia | exact G].
  - apply (grows_trans 1 (List.length xs) st st1); [exact G | apply IH].
Qed.

(** X6.  [execute] only ever appends to the collected values: whatever the
    browser answers and however it ends, the list afterwards is the list
    before followed by at most one value per code; nothing is removed,
    replaced or reset, so a second [execute] adds to the first. *)
Theorem execute_only_appends
        (url : string) (c : Calc) (w : W) (lg : list command) :
  exists l,
    list_of_CPT_code_values (self (snd (execute url (State c w lg))))
    = list_of_CPT_code_values c ++ l
    /\ (List.length l <= List.length (list_of_CPT_codes c))%nat.
Proof.
  change (grows (List.length (list_of_CPT_codes c)) (State c w lg)
                (snd (execute url (State c w lg)))).
  unfold execute, bind.
  pose proof (open_website_self url (State c w lg)) as S1.
  unfold same in S1. cbn [self] in S1.
  destruct (open_website url (State c w lg)) as [[e|[]] st1]; cbn [snd] in *.
  { apply (grows_more 0); [lia|]. exists []. split; [now rewrite S1, app_nil_r | cbn; lia]. }
  pose proof (click_revenue_calculator_self st1) as S2. unfold same in S2.
  destruct (click_revenue_calculator st1) as [[e|[]] st2]; cbn [snd] in *.
  { apply (grows_more 0); [lia|]. exists []. split; [now rewrite S2, S1, app_nil_r | cbn; lia]. }
  unfold read, Ok. cbv beta iota. cbn [fst snd].
  assert (Lx : List.length (generate_cpt_code_xpaths (self st2))
               = List.length (list_of_CPT_codes c)).
  { unfold generate_cpt_code_xpaths. now rewrite length_map, S2, S1. }
  pose proof (for_each_checkbox_code_grows
                (generate_cpt_code_xpaths (self st2)) st2) as G.
  rewrite Lx in G. clear Lx.
  assert (G0 : grows (List.length (list_of_CPT_codes c)) (State c w lg) st2).
  { apply (grows_more 0); [lia|]. exists []. split; [now rewrite S2, S1, app_nil_r | cbn; lia]. }
  assert (G2 : forall st3, grows (List.length (list_of_CPT_codes c)) st2 st3 ->
                           grows (List.length (list_of_CPT_codes c))
                                 (State c w lg) st3).
  { intros st3 (l & E & L). exists l. cbn [self].
    split; [now rewrite E, S2, S1 | exact L]. }
  destruct (for_each _ _ st2) as [[e|[]] st3]; cbn [snd] in *;
    [now apply G2|].
  pose proof (count_and_validation_keep_values st3) as S4.
  unfold same, bind in S4.
  destruct (count_of_patients st3) as [[e|[]] st4]; cbn [snd] in *.
  - apply G2. destruct G as (l & E & L). exists l.
    split; [now rewrite S4 | exact L].
  - apply G2. destruct G as (l & E & L). exists l.
    split; [now rewrite S4 | exact L].
Qed.
End Collected.

(** ** Edge cases of the reimbursement scenario *)

Section Edges.
Context {W : Type} `{Browser W}.

Lemma sum_of_floats (l : list float) :
  exists s, sum (map PFloat l) = Ok s.
Proof.
  destruct l as [|a l]; [now exists (PInt 0)|].
  destruct (sum_floats (a :: l)) as [g E]; [discriminate|]. now exists (PFloat g).
Qed.

(** X7.  With nothing collected, [count_of_patients] stores the integer 0
    as total whatever the patient count, so that the validation passes
    exactly when the aggregate shown is zero. *)
Theorem nothing_collected_gives_zero
        (c : Calc) (w w1 w2 w3 w4 : W) (lg : list command)
        (e vf : WebElement) (txt ps : string) (a p : Z) :
  list_of_CPT_code_values c = [] ->
  respond (until_present (wait c) total_xpath) w = (inr e, w1) ->
  respond (text e) w1 = (inr txt, w2) ->
  parse_total txt = Ok a ->
  respond (find_element field_xpath) w2 = (inr vf, w3) ->
  respond (get_attribute vf "value") w3 = (inr (Some ps), w4) ->
  int_of_str ps = Ok p ->
  exists st',
    count_of_patients (State c w lg) = (Ok tt, st')
    /\ total_Value_of_reimbursement (self st') = PInt 0
    /\ (fst (validation_of_total_recurring_reimbursement_per_month st') = Ok tt
        <-> a = 0).
Proof.
  intros Hn Hw Ht Ha Hf Hv Hp.
  rewrite (count_of_patients_result c w w1 w2 lg e txt Hw Ht), Ha.
  unfold Ok at 1. cbv beta iota zeta.
  match goal with
  | |- context [tally ?st] =>
      rewrite (tally_result st w3 w4 vf (Some ps) Hf Hv)
  end.
  cbv zeta. cbn [self list_of_CPT_code_values set_amount RevenueCalculator.int].
  rewrite Hn, Hp. cbn [map sum sum_from rbind Ok mul]. rewrite Z.mul_0_l.
  eexists. split; [reflexivity|].
  cbn [self total_Value_of_reimbursement set_total_Value_of_reimbursement].
  split; [reflexivity|].
  rewrite validation_result.
  cbn [fst self total_Value_of_reimbursement amount
       set_total_Value_of_reimbursement set_amount eqb].
  destruct (Z.eqb_spec 0 a) as [<-|N]; split; intro E;
    try reflexivity; try discriminate E; congruence.
Qed.

(** X8.  When the patient count read from the field is no integer (or the
    field has no value), [count_of_patients] raises the error of [int()]
    after it has stored the new aggregate: [amount] is updated, the total
    keeps its former value. *)
Theorem count_of_patients_fails_half_way
        (c : Calc) (w w1 w2 w3 w4 : W) (lg : list command)
        (e vf : WebElement) (txt : string) (v : option string) (a : Z)
        (er : exn) :
  respond (until_present (wait c) total_xpath) w = (inr e, w1) ->
  respond (text e) w1 = (inr txt, w2) ->
  parse_total txt = Ok a ->
  respond (find_element field_xpath) w2 = (inr vf, w3) ->
  respond (get_attribute vf "value") w3 = (inr v, w4) ->
  RevenueCalculator.int v = Err er ->
  let r := count_of_patients (State c w lg) in
  fst r = Err er
  /\ (er = ValueError \/ er = TypeError)
  /\ amount (self (snd r)) = a
  /\ total_Value_of_reimbursement (self (snd r))
     = total_Value_of_reimbursement c.
Proof.
  intros Hw Ht Ha Hf Hv Hp. cbv zeta.
  rewrite (count_of_patients_result c w w1 w2 lg e txt Hw Ht), Ha.
  unfold Ok. cbv beta iota zeta.
  match goal with
  | |- context [tally ?st] => rewrite (tally_result st w3 w4 vf v Hf Hv)
  end.
  cbv zeta. cbn [self].
  destruct (sum_of_floats (list_of_CPT_code_values (set_amount a c)))
    as [s Es].
  unfold Ok in Es. rewrite Es, Hp. cbn [rbind Err fst snd self].
  split; [reflexivity|]. split; [exact (int_error v er Hp)|].
  now split.
Qed.



(** X10.  A text that [float()] refuses matters only for a recurring code:
    when the marker is found, [checkbox_code] returns normally without ever
    parsing the amount; when the probe raises, it raises [ValueError].  The
    collected values are unchanged either way. *)
Theorem checkbox_code_with_unreadable_amount
        (c : Calc) (w : W) (lg : list command) (locator text : string)
        (st1 : state Calc W) (er : exn) :
  select_and_scrape locator (State c w lg) = (Ok text, st1) ->
  parse_reimbursement text = Err er ->
  let probe := fst (respond (until_present (wait c)
                               ((locator ++ parent) ++ recuring_text))
                            (browser st1)) in
  let r := checkbox_code locator (State c w lg) in
  list_of_CPT_code_values (self (snd r)) = list_of_CPT_code_values c
  /\ ((exists el, probe = inr el) -> fst r = Ok tt)
  /\ ((exists x, probe = inl x) -> fst r = Err ValueError).
Proof.
  intros Hs Hp probe r.
  pose proof (select_and_scrape_self locator (State c w lg)) as Sf.
  rewrite Hs in Sf. unfold same in Sf. cbn [snd self] in Sf.
  assert (R : r = record_unless_one_time locator text st1).
  { subst r. unfold checkbox_code, bind. now rewrite Hs. }
  rewrite R, record_unless_one_time_result. cbv zeta.
  rewrite Sf, Hp. fold probe.
  unfold parse_reimbursement in Hp.
  rewrite (float_of_str_error _ _ Hp).
  destruct probe as [x|el]; cbn [fst snd self].
  - split; [reflexivity|]. split; [now intros [el [=]] | reflexivity].
  - split; [reflexivity|]. split; [reflexivity | now intros [x [=]]].
Qed.
End Edges.

(** ** Edge cases of the slider scenario *)

Section SliderEdges.
Context {W : Type} `{Browser W}.

(** X11.  The defensive comparison is on texts: a slider that reports the
    target under another spelling that [int()] accepts (a leading zero, a
    sign, a space) makes [move_slider_to_target] end its fine phase with
    [AssertionError], no key having been sent, although the value is the
    target. *)
Theorem fine_phase_rejects_other_spellings
        (c : Calc) (w w1 w2 w3 : W) (lg : list command) (h : WebElement)
        (s : string) :
  slider_handle c = Some h ->
  respond (get_attribute h "aria-valuenow") w = (inr (Some s), w1) ->
  respond (execute_script scroll_script (slider_track c)) w1 = (inr tt, w2) ->
  respond (get_attribute h "aria-valuenow") w2 = (inr (Some s), w3) ->
  int_of_str s = Ok (target_value c) ->
  s <> str_of_int (target_value c) ->
  fine_phase (State c w lg)
  = (Err (AssertionError
            [Lit "Slider value mismatch: "; Str s; Lit " != ";
             Num (PInt (target_value c))]),
     State c w3
           (lg ++ [get_attribute h "aria-valuenow";
                   execute_script scroll_script (slider_track c);
                   get_attribute h "aria-valuenow"])).
Proof.
  intros Hh Hr Hs Hr' Hv Hne.
  rewrite (fine_phase_after_reading c w w1 w2 lg h s _ Hh Hr Hv Hs).
  rewrite Z.sub_diag. cbn [Z.ltb Z.compare].
  unfold recheck. rewrite (element_of_some _ h) by exact Hh.
  rewrite bind_call. cbn [browser self log]. rewrite Hr'.
  rewrite bind_read. cbn [self shown equals_str].
  destruct (String.eqb_spec s (str_of_int (target_value c))) as [E|_];
    [contradiction|].
  unfold raise. now rewrite <- app_assoc.
Qed.

(** X12.  An attribute that is missing or is no integer stops the methods
    before any key is sent: [clear_and_set_value] raises [TypeError] when
    the field has no [value]; the fine phase raises the error of [int()]
    ([TypeError] for a missing [aria-valuenow], [ValueError] for a text that
    is no integer) right after reading it, without scrolling. *)
Theorem missing_attribute_stops_before_keys
        (c : Calc) (w w1 : W) (lg : list command) (e : WebElement) :
  (value_field c = Some e ->
   respond (get_attribute e "value") w = (inr None, w1) ->
   forall v,
     clear_and_set_value v (State c w lg)
     = (Err TypeError, State c w1 (lg ++ [get_attribute e "value"])))
  /\ (slider_handle c = Some e ->
      forall now er,
        respond (get_attribute e "aria-valuenow") w = (inr now, w1) ->
        RevenueCalculator.int now = Err er ->
        fine_phase (State c w lg)
        = (Err er, State c w1 (lg ++ [get_attribute e "aria-valuenow"]))
        /\ (er = ValueError \/ er = TypeError)).
Proof.
  split.
  - intros Hf Hr v. unfold clear_and_set_value.
    rewrite (element_of_some _ e) by exact Hf.
    rewrite bind_call. cbn [browser self log]. rewrite Hr.
    now rewrite bind_lift.
  - intros Hh now er Hr He. split; [|exact (int_error now er He)].
    unfold fine_phase. rewrite (element_of_some _ e) by exact Hh.
    rewrite bind_call. cbn [browser self log]. rewrite Hr.
    rewrite bind_read, bind_lift. now rewrite He.
Qed.

(** X13.  When the "Revenue Calculator" link never becomes clickable, both
    scenarios end on the exception of that wait after three commands (the
    page load, the maximising and the wait), with the object unchanged. *)
Theorem scenarios_stop_at_the_missing_link
        (url tv : string) (c : Calc) (w w1 w2 w3 : W) (lg : list command)
        (x : wd_exn) :
  respond (get url) w = (inr tt, w1) ->
  respond maximize_window w1 = (inr tt, w2) ->
  respond (until_clickable (wait c) "//div[text()='Revenue Calculator']") w2
  = (inl x, w3) ->
  let stop :=
    (Err (A:=unit) (SeleniumException x),
     State c w3
           (lg ++ [get url; maximize_window;
                   until_clickable (wait c)
                                   "//div[text()='Revenue Calculator']"])) in
  run url tv (State c w lg) = stop /\ execute url (State c w lg) = stop.
Proof.
  intros Hg Hm Hw. cbv zeta.
  assert (P : forall {B} (k : unit -> M Calc W B),
             bind (open_website url) (fun _ =>
             bind click_revenue_calculator k) (State c w lg)
             = (Err (SeleniumException x),
                State c w3
                      (lg ++ [get url; maximize_window;
                              until_clickable
                                (wait c)
                                "//div[text()='Revenue Calculator']"]))).
  { intros B k. unfold open_website, click_revenue_calculator.
    rewrite !bind_bind, bind_call. cbn [browser self log]. rewrite Hg.
    cbv beta iota.
    rewrite (bind_call maximize_window). cbn [browser self log]. rewrite Hm.
    cbv beta iota.
    rewrite bind_bind, bind_wait_clickable. cbv zeta. cbn [browser self log].
    rewrite Hw. now rewrite <- !app_assoc. }
  split; [unfold run | unfold execute]; apply P.
Qed.
End SliderEdges.

(** ** The texts that are parsed and the locators that are built *)

Section Texts.

Lemma chars_inj (a b : string) : chars a = chars b -> a = b.
Proof.
  intro E. rewrite <- (string_of_list_ascii_of_string a),
             <- (string_of_list_ascii_of_string b).
  unfold chars in E. now rewrite E.
Qed.

Lemma chars_app (a b : string) :
  chars (a ++ b)%string = (chars a ++ chars b)%list.
Proof.
  induction a as [|x a IH]; [reflexivity|].
  cbn [append chars list_ascii_of_string app]. f_equal. exact IH.
Qed.

Lemma filter_twice {A} (f : A -> bool) (l : list A) :
  filter f (filter f l) = filter f l.
Proof.
  induction l as [|x l IH]; [reflexivity|].
  cbn [filter]. destruct (f x) eqn:E; [|exact IH].
  cbn [filter]. rewrite E. now f_equal.
Qed.

(** X14.  Only the characters other than ["$"] and [","] count: two texts
    that agree once these are dropped are parsed alike, as amount and as
    aggregate, wherever the marks stand and however many there are; and
    dropping them a second time changes nothing. *)
Theorem currency_marks_are_ignored (a b : string) :
  (filter (fun x => negb (is_currency_mark x)) (chars a)
   = filter (fun x => negb (is_currency_mark x)) (chars b) ->
   parse_reimbursement a = parse_reimbursement b
   /\ parse_total a = parse_total b)
  /\ strip_currency (strip_currency a) = strip_currency a.
Proof.
  split.
  - intro E.
    assert (S : strip_currency a = strip_currency b).
    { apply chars_inj. now rewrite !strip_currency_filter. }
    unfold parse_reimbursement, parse_total. now rewrite S.
  - apply chars_inj. rewrite !strip_currency_filter. apply filter_twice.
Qed.




Lemma format_im_template (i : string) :
  format_im (full_xpath init) i = locator_of i.
Proof. reflexivity. Qed.

Lemma locator_of_inj (i j : string) : locator_of i = locator_of j -> i = j.
Proof.
  unfold locator_of. intro E. apply (f_equal chars) in E.
  rewrite !chars_app in E.
  apply app_inv_head, app_inv_tail in E. now apply chars_inj.
Qed.

(** X16.  With the template of [__init__], [generate_cpt_code_xpaths]
    gives one locator per code, in the order of the codes, each the template
    with the code in the place of [{im}] (a code is put in as it is, braces
    included); distinct codes get distinct locators. *)
Theorem one_locator_per_code (c : Calc) :
  full_xpath c = full_xpath init ->
  generate_cpt_code_xpaths c = map locator_of (list_of_CPT_codes c)
  /\ (NoDup (list_of_CPT_codes c) -> NoDup (generate_cpt_code_xpaths c)).
Proof.
  intro E.
  assert (G : generate_cpt_code_xpaths c
              = map locator_of (list_of_CPT_codes c)).
  { unfold generate_cpt_code_xpaths. rewrite E.
    apply map_ext. exact format_im_template. }
  split; [exact G|]. rewrite G. clear G E. intro N.
  induction N as [|i l Hi N IH]; cbn [map]; [constructor|].
  constructor; [|exact IH].
  intro In. apply in_map_iff in In. destruct In as (j & Ej & Hj).
  apply locator_of_inj in Ej. now subst j.
Qed.
End Texts.

(** ** The further properties on the page *)

Section FurtherOnThePage.

Lemma methods_before_find_elements_witness :
  clear_and_set_value "560" (State init fitpeo [])
  = (Err AttributeError, State init fitpeo [])
  /\ move_slider_to_target (State init fitpeo [])
     = (Err AttributeError, State init fitpeo []).
Proof.
  split.
  - exact (proj1 (proj1 (methods_before_find_elements init fitpeo [] "560")
                        eq_refl)).
  - exact (proj2 (methods_before_find_elements init fitpeo [] "560")
                 eq_refl).
Defined.

Lemma nothing_collected_gives_zero_witness :
  exists st',
    count_of_patients (State init fitpeo []) = (Ok tt, st')
    /\ total_Value_of_reimbursement (self st') = PInt 0
    /\ (fst (validation_of_total_recurring_reimbursement_per_month st')
        = Ok tt <-> 1750 = 0).
Proof.
  apply (nothing_collected_gives_zero
           init fitpeo fitpeo fitpeo fitpeo fitpeo []
           (Element total_xpath) (Element field_xpath) "$1,750" "50"
           1750 50);
    vm_compute; reflexivity.
Defined.

Lemma count_of_patients_fails_half_way_witness :
  let r := count_of_patients (State collected no_patients []) in
  fst r = Err ValueError
  /\ (ValueError = ValueError \/ ValueError = TypeError)
  /\ amount (self (snd r)) = 1750
  /\ total_Value_of_reimbursement (self (snd r))
     = total_Value_of_reimbursement collected.
Proof.
  apply (count_of_patients_fails_half_way
           collected no_patients no_patients no_patients no_patients
           no_patients [] (Element total_xpath) (Element field_xpath)
           "$1,750" (Some "") 1750 ValueError);
    vm_compute; reflexivity.
Defined.


Lemma checkbox_code_with_unreadable_amount_witness :
  let st1 := snd (select_and_scrape first_locator (State init unpriced [])) in
  let probe := fst (respond (until_present (wait init)
                               ((first_locator ++ parent) ++ recuring_text))
                            (browser st1)) in
  let r := checkbox_code first_locator (State init unpriced []) in
  list_of_CPT_code_values (self (snd r)) = list_of_CPT_code_values init
  /\ ((exists el, probe = inr el) -> fst r = Ok tt)
  /\ ((exists x, probe = inl x) -> fst r = Err ValueError).
Proof.
  apply (checkbox_code_with_unreadable_amount
           init unpriced [] first_locator "n/a" _ ValueError);
    vm_compute; reflexivity.
Defined.

Lemma fine_phase_rejects_other_spellings_witness :
  @fine_phase string echo_browser (State ready "0820" [])
  = (Err (AssertionError
            [Lit "Slider value mismatch: "; Str "0820"; Lit " != ";
             Num (PInt (target_value ready))]),
     State ready "0820"
           ([] ++ [get_attribute (Element handle_xpath) "aria-valuenow";
                   execute_script scroll_script (slider_track ready);
                   get_attribute (Element handle_xpath) "aria-valuenow"])).
Proof.
  apply (@fine_phase_rejects_other_spellings
           string echo_browser ready "0820" "0820" "0820" "0820" []
           (Element handle_xpath) "0820");
    try (vm_compute; reflexivity).
  vm_compute. discriminate.
Defined.

Lemma missing_attribute_stops_before_keys_witness :
  clear_and_set_value "560" (State misfield fitpeo [])
  = (Err TypeError,
     State misfield fitpeo
           ([] ++ [get_attribute (Element handle_xpath) "value"]))
  /\ fine_phase (State mislocated fitpeo [])
     = (Err TypeError,
        State mislocated fitpeo
              ([] ++ [get_attribute (Element field_xpath) "aria-valuenow"])).
Proof.
  split.
  - exact (proj1 (missing_attribute_stops_before_keys
                    misfield fitpeo fitpeo [] (Element handle_xpath))
                 eq_refl eq_refl "560").
  - exact (proj1 (proj2 (missing_attribute_stops_before_keys
                           mislocated fitpeo fitpeo [] (Element field_xpath))
                        eq_refl None TypeError eq_refl eq_refl)).
Defined.

Lemma scenarios_stop_at_the_missing_link_witness :
  let stop :=
    (Err (A:=unit) (SeleniumException TimeoutException),
     State init tt
           ([] ++ [get "https://www.fitpeo.com/"; maximize_window;
                   until_clickable (wait init)
                                   "//div[text()='Revenue Calculator']"])) in
  @run unit blank_browser "https://www.fitpeo.com/" "560" (State init tt [])
  = stop
  /\ @execute unit blank_browser "https://www.fitpeo.com/" (State init tt [])
     = stop.
Proof.
  exact (@scenarios_stop_at_the_missing_link
           unit blank_browser "https://www.fitpeo.com/" "560" init
           tt tt tt tt [] TimeoutException eq_refl eq_refl eq_refl).
Defined.

Lemma currency_marks_are_ignored_witness :
  parse_reimbursement "$1,750" = parse_reimbursement "17,50$"
  /\ parse_total "$1,750" = parse_total "17,50$".
Proof.
  exact (proj1 (currency_marks_are_ignored "$1,750" "17,50$") eq_refl).
Defined.


Lemma one_locator_per_code_witness :
  generate_cpt_code_xpaths init = map locator_of (list_of_CPT_codes init)
  /\ (NoDup (list_of_CPT_codes init) -> NoDup (generate_cpt_code_xpaths init)).
Proof. exact (one_locator_per_code init eq_refl). Defined.
End FurtherOnThePage.
